(** * Theme management of the Evo SDK website (public/theme.js)

    A shallow embedding of [theme.js] and the properties of its
    specification.  The script is browser code: it reads and writes
    [localStorage], queries [window.matchMedia], mutates the document and
    registers event listeners.  All of that is modelled as an explicit
    [World] threaded through a state-and-exception monad [M]; exceptions are
    kept because the two storage accessors are written with [try]/[catch]. *)

From stdpp Require Import base option list gmap strings.

Local Open Scope string_scope.
Local Open Scope list_scope.

(** ** JavaScript values

    Only the values that flow through the script are represented: [null]
    (what [getItem] returns for a missing key), [undefined] (a missing
    argument), booleans (the argument of [setAttribute('aria-expanded', ..)])
    and strings. *)

Inductive Value : Type :=
  | JNull
  | JUndefined
  | JBool (b : bool)
  | JStr (s : string).

#[global] Instance Value_eq_dec : EqDecision Value.
Proof. solve_decision. Defined.

(** ToBoolean: what [!v], [v || w] and [if (v)] test. *)
Definition truthy (v : Value) : bool :=
  match v with
  | JNull | JUndefined => false
  | JBool b => b
  | JStr s => negb (bool_decide (s = ""))
  end.

(** The [===] operator on these values. *)
Definition strict_eq (a b : Value) : bool := bool_decide (a = b).

(** ToString, applied by [setItem] and [setAttribute] to their value. *)
Definition ToString (v : Value) : string :=
  match v with
  | JNull => "null"
  | JUndefined => "undefined"
  | JBool true => "true"
  | JBool false => "false"
  | JStr s => s
  end.

(** [a || b]. *)
Definition js_or (a b : Value) : Value := if truthy a then a else b.

(** ** Constants of the script *)

Definition THEME_KEY : string := "evo-sdk-theme".

Module THEMES.
Definition LIGHT : string := "light".
Definition DARK : string := "dark".
Definition SYSTEM : string := "system".
End THEMES.

(** The three entries of [ICONS].  Each is a fixed SVG markup string; the
    script only ever copies them around, so an entry is represented by its
    key. *)
Module ICONS.
Inductive t : Type := sun | moon | system.

#[global] Instance eq_dec : EqDecision t.
Proof. solve_decision. Defined.
End ICONS.

(** ** The browser state *)

(** Exceptions: the DOMException a storage access can raise
    ("SecurityError", "QuotaExceededError", ...). *)
Inductive Exn : Type := DOMException (name : string).

(** [localStorage]: its items, and whether its two accessors throw. *)
Record Storage : Type := mkStorage {
  items : gmap string string;
  getItem_fails : option Exn;
  setItem_fails : string -> string -> option Exn
}.

(** What the script consults on [window]. *)
Record Window : Type := mkWindow {
  (** [window.matchMedia] is defined *)
  matchMedia_defined : bool;
  (** [.matches] of the query '(prefers-color-scheme: dark)' *)
  prefers_dark : bool;
  (** the MediaQueryList has [addEventListener] (modern browsers) *)
  mq_addEventListener_defined : bool;
  (** [window.ThemeManager] has been assigned *)
  ThemeManager_defined : bool
}.

(** One option button of the dropdown. *)
Record OptionEl : Type := mkOptionEl {
  opt_classList : gset string;
  opt_dataset_theme : string;
  opt_icon : ICONS.t;
  opt_text : string
}.

(** The element built by [createThemeSelector]: the button with its icon
    and label spans, the dropdown and its options. *)
Record Selector : Type := mkSelector {
  className : string;
  btn_attrs : gmap string string;
  btn_icon_innerHTML : ICONS.t;
  btn_label_textContent : string;
  dropdown_classList : gset string;
  options : list OptionEl
}.

Inductive ReadyState : Type := loading | interactive | complete.

#[global] Instance ReadyState_eq_dec : EqDecision ReadyState.
Proof. solve_decision. Defined.

Record Document : Type := mkDocument {
  readyState : ReadyState;
  (** attributes of [document.documentElement] *)
  documentElement : gmap string string;
  (** attributes of the first [meta[name="theme-color"]], if there is one *)
  meta_theme_color : option (gmap string string);
  (** the elements that carry an id, each with the selectors appended to it *)
  elements_by_id : gmap string (list nat);
  (** the selector elements created so far; a selector is referred to by
      its position in this list *)
  selectors : list Selector
}.

(** Event listeners.  A handler is one of the closures the script creates;
    it is represented by the variables it captures. *)
Inductive EventTarget : Type :=
  | T_btn (sel : nat)
  | T_option (sel : nat) (i : nat)
  | T_document
  | T_mediaQuery.

Inductive EventType : Type := click | keydown | change | DOMContentLoaded.

Definition Callback : Type := string.

Inductive Handler : Type :=
  | H_toggle (sel : nat)
  | H_select (sel : nat) (i : nat)
  | H_close (sel : nat)
  | H_escape (sel : nat)
  | H_systemTheme (callback : option Callback)
  | H_initThemeUI.

#[global] Instance EventTarget_eq_dec : EqDecision EventTarget.
Proof. solve_decision. Defined.
#[global] Instance EventType_eq_dec : EqDecision EventType.
Proof. solve_decision. Defined.

Record Listener : Type := mkListener {
  l_target : EventTarget;
  l_type : EventType;
  l_handler : Handler
}.

(** What an outside observer sees of a run: the entries into [initTheme]
    and [createThemeSelector], and the calls to a listener callback (a
    function of the caller, whose own effects are not part of the script). *)
Inductive Call : Type :=
  | Call_initTheme
  | Call_createThemeSelector (containerId : string)
  | Call_callback (f : Callback) (arg : Value).

Record World : Type := mkWorld {
  localStorage : Storage;
  window : Window;
  document : Document;
  listeners : list Listener;
  history : list Call
}.

(** *** Field updates *)

Definition set_items (f : gmap string string -> gmap string string) (w : World) : World :=
  let st := localStorage w in
  mkWorld (mkStorage (f (items st)) (getItem_fails st) (setItem_fails st))
          (window w) (document w) (listeners w) (history w).

Definition set_window (f : Window -> Window) (w : World) : World :=
  mkWorld (localStorage w) (f (window w)) (document w) (listeners w) (history w).

Definition set_document (f : Document -> Document) (w : World) : World :=
  mkWorld (localStorage w) (window w) (f (document w)) (listeners w) (history w).

Definition set_listeners (f : list Listener -> list Listener) (w : World) : World :=
  mkWorld (localStorage w) (window w) (document w) (f (listeners w)) (history w).

Definition set_history (f : list Call -> list Call) (w : World) : World :=
  mkWorld (localStorage w) (window w) (document w) (listeners w) (f (history w)).

Definition set_documentElement (f : gmap string string -> gmap string string)
    (d : Document) : Document :=
  mkDocument (readyState d) (f (documentElement d)) (meta_theme_color d)
             (elements_by_id d) (selectors d).

Definition set_meta_theme_color
    (f : option (gmap string string) -> option (gmap string string))
    (d : Document) : Document :=
  mkDocument (readyState d) (documentElement d) (f (meta_theme_color d))
             (elements_by_id d) (selectors d).

Definition set_elements_by_id
    (f : gmap string (list nat) -> gmap string (list nat)) (d : Document) : Document :=
  mkDocument (readyState d) (documentElement d) (meta_theme_color d)
             (f (elements_by_id d)) (selectors d).

Definition set_selectors (f : list Selector -> list Selector) (d : Document) : Document :=
  mkDocument (readyState d) (documentElement d) (meta_theme_color d)
             (elements_by_id d) (f (selectors d)).

Definition set_readyState (r : ReadyState) (d : Document) : Document :=
  mkDocument r (documentElement d) (meta_theme_color d)
             (elements_by_id d) (selectors d).

(** ** The monad of script code

    A computation runs in a world and either completes normally with a
    value or throws; in both cases it leaves a world behind, since the
    effects made before a [throw] stay. *)

Inductive Completion (A : Type) : Type :=
  | Normal (a : A) (w : World)
  | Throw (e : Exn) (w : World).
Arguments Normal {A} a w.
Arguments Throw {A} e w.

Definition M (A : Type) : Type := World -> Completion A.

#[global] Instance M_ret : MRet M := fun A a w => Normal a w.

#[global] Instance M_bind : MBind M := fun A B f m w =>
  match m w with
  | Normal a w' => f a w'
  | Throw e w' => Throw e w'
  end.

(** [try { m } catch { h }] *)
Definition try_catch {A} (m : M A) (h : Exn -> M A) : M A := fun w =>
  match m w with
  | Normal a w' => Normal a w'
  | Throw e w' => h e w'
  end.

Definition gets {A} (f : World -> A) : M A := fun w => Normal (f w) w.
Definition modify (f : World -> World) : M unit := fun w => Normal tt (f w).
Definition throw {A} (e : Exn) : M A := fun w => Throw e w.
Definition log (c : Call) : M unit := modify (set_history (fun h => h ++ [c])).

(** The world a completion leaves behind. *)
Definition world_of {A} (c : Completion A) : World :=
  match c with Normal _ w => w | Throw _ w => w end.

(** ** Platform operations used by the script *)

Definition localStorage_getItem (k : string) : M Value :=
  st ← gets localStorage;
  match getItem_fails st with
  | Some e => throw e
  | None => mret (match items st !! k with Some s => JStr s | None => JNull end)
  end.

Definition localStorage_setItem (k : string) (v : Value) : M unit :=
  st ← gets localStorage;
  match setItem_fails st k (ToString v) with
  | Some e => throw e
  | None => modify (set_items (fun m => <[k := ToString v]> m))
  end.

(** [document.documentElement.setAttribute(name, v)] *)
Definition documentElement_setAttribute (name : string) (v : Value) : M unit :=
  modify (set_document (set_documentElement (fun a => <[name := ToString v]> a))).

(** [metaThemeColor.setAttribute(name, v)] on the element found by
    [document.querySelector('meta[name="theme-color"]')] *)
Definition meta_setAttribute (name : string) (v : Value) : M unit :=
  modify (set_document (set_meta_theme_color (fmap (fun a => <[name := ToString v]> a)))).

(** ** The script, function by function *)

Definition getSystemTheme : M Value :=
  win ← gets window;
  if matchMedia_defined win && prefers_dark win
  then mret (JStr THEMES.DARK)
  else mret (JStr THEMES.LIGHT).

Definition getStoredTheme : M Value :=
  try_catch (localStorage_getItem THEME_KEY) (fun _ => mret JNull).

Definition storeTheme (theme : Value) : M unit :=
  try_catch (localStorage_setItem THEME_KEY theme) (fun _ => mret tt).

Definition getEffectiveTheme (preference : Value) : M Value :=
  if strict_eq preference (JStr THEMES.SYSTEM) || negb (truthy preference)
  then getSystemTheme
  else mret preference.

Definition applyTheme (theme : Value) : M unit :=
  effectiveTheme ← getEffectiveTheme theme;
  documentElement_setAttribute "data-theme" effectiveTheme;;
  metaThemeColor ← gets (fun w => meta_theme_color (document w));
  match metaThemeColor with
  | Some _ =>
      meta_setAttribute "content"
        (JStr (if strict_eq effectiveTheme (JStr THEMES.DARK)
               then "#0f3460" else "#2c3e50"))
  | None => mret tt
  end.

(** The first line enters the call in the history; the rest is the body of
    the function. *)
Definition initTheme : M Value :=
  log Call_initTheme;;
  stored ← getStoredTheme;
  let storedTheme := js_or stored (JStr THEMES.SYSTEM) in
  applyTheme storedTheme;;
  mret storedTheme.

(** [target.addEventListener(type, handler)].  Every handler of the script
    is a fresh closure, so a registration is never a duplicate. *)
Definition addEventListener (t : EventTarget) (ty : EventType) (h : Handler) : M unit :=
  modify (set_listeners (fun ls => ls ++ [mkListener t ty h])).

(** The legacy [mediaQuery.addListener(handler)]: a [change] listener. *)
Definition mediaQuery_addListener (h : Handler) : M unit :=
  addEventListener T_mediaQuery change h.

(** The body of the closure [handler] of [setupSystemThemeListener]. *)
Definition systemTheme_handler (callback : option Callback) : M unit :=
  storedTheme ← getStoredTheme;
  if strict_eq storedTheme (JStr THEMES.SYSTEM) || negb (truthy storedTheme)
  then
    applyTheme (JStr THEMES.SYSTEM);;
    match callback with
    | Some f => log (Call_callback f (JStr THEMES.SYSTEM))
    | None => mret tt
    end
  else mret tt.

Definition setupSystemThemeListener (callback : option Callback) : M unit :=
  win ← gets window;
  if matchMedia_defined win
  then
    if mq_addEventListener_defined win
    then addEventListener T_mediaQuery change (H_systemTheme callback)
    else mediaQuery_addListener (H_systemTheme callback)
  else mret tt.

Definition getIconForTheme (theme : Value) : ICONS.t :=
  if strict_eq theme (JStr THEMES.LIGHT) then ICONS.sun
  else if strict_eq theme (JStr THEMES.DARK) then ICONS.moon
  else ICONS.system.

Definition getLabelForTheme (theme : Value) : string :=
  if strict_eq theme (JStr THEMES.LIGHT) then "Light"
  else if strict_eq theme (JStr THEMES.DARK) then "Dark"
  else "System".

(** *** DOMTokenList operations on a class list *)

Definition classList_contains (c : string) (cl : gset string) : bool :=
  bool_decide (c ∈ cl).

Definition classList_remove (c : string) (cl : gset string) : gset string :=
  cl ∖ {[c]}.

Definition classList_toggle (c : string) (cl : gset string) : gset string :=
  if classList_contains c cl then cl ∖ {[c]} else cl ∪ {[c]}.

(** [classList.toggle(c, force)] *)
Definition classList_toggle_force (c : string) (force : bool) (cl : gset string)
    : gset string :=
  if force then cl ∪ {[c]} else cl ∖ {[c]}.

(** *** Mutation of a selector element through a reference to it *)

Definition modify_selector (sel : nat) (f : Selector -> Selector) : M unit :=
  modify (set_document (set_selectors (alter f sel))).

Definition set_btn_attrs (f : gmap string string -> gmap string string)
    (s : Selector) : Selector :=
  mkSelector (className s) (f (btn_attrs s)) (btn_icon_innerHTML s)
             (btn_label_textContent s) (dropdown_classList s) (options s).

Definition set_btn_icon_innerHTML (i : ICONS.t) (s : Selector) : Selector :=
  mkSelector (className s) (btn_attrs s) i
             (btn_label_textContent s) (dropdown_classList s) (options s).

Definition set_btn_label_textContent (l : string) (s : Selector) : Selector :=
  mkSelector (className s) (btn_attrs s) (btn_icon_innerHTML s)
             l (dropdown_classList s) (options s).

Definition set_dropdown_classList (f : gset string -> gset string)
    (s : Selector) : Selector :=
  mkSelector (className s) (btn_attrs s) (btn_icon_innerHTML s)
             (btn_label_textContent s) (f (dropdown_classList s)) (options s).

Definition set_options (f : list OptionEl -> list OptionEl) (s : Selector) : Selector :=
  mkSelector (className s) (btn_attrs s) (btn_icon_innerHTML s)
             (btn_label_textContent s) (dropdown_classList s) (f (options s)).

Definition set_opt_classList (f : gset string -> gset string) (o : OptionEl) : OptionEl :=
  mkOptionEl (f (opt_classList o)) (opt_dataset_theme o) (opt_icon o) (opt_text o).

(** [btn.setAttribute(name, v)] *)
Definition btn_setAttribute (name : string) (v : Value) (s : Selector) : Selector :=
  set_btn_attrs (fun a => <[name := ToString v]> a) s.

(** [setTheme(theme, selectorElement)].  [selectorElement] is a selector
    built by [createThemeSelector] or absent; such an element always has its
    icon and label spans, so the two [if (btnIcon)], [if (btnLabel)] guards
    pass.  The [forEach] over the options updates each option in place. *)
Definition setTheme (theme : Value) (selectorElement : option nat) : M unit :=
  storeTheme theme;;
  applyTheme theme;;
  match selectorElement with
  | Some sel =>
      modify_selector sel (set_btn_icon_innerHTML (getIconForTheme theme));;
      modify_selector sel (set_btn_label_textContent (getLabelForTheme theme));;
      modify_selector sel (set_options (map (fun opt =>
        set_opt_classList
          (classList_toggle_force "active"
             (strict_eq (JStr (opt_dataset_theme opt)) theme)) opt)))
  | None => mret tt
  end.

(** The class attribute ["theme-option ${active ? 'active' : ''}"]. *)
Definition option_classes (active : bool) : gset string :=
  if active then {["theme-option"; "active"]} else {["theme-option"]}.

(** The tree that the [innerHTML] template of [createThemeSelector] parses
    to, for a given [currentTheme]. *)
Definition selector_template (currentTheme : Value) : Selector :=
  mkSelector "theme-selector"
    (<["aria-label" := "Select theme"]>
       (<["aria-haspopup" := "true"]> (<["aria-expanded" := "false"]> ∅)))
    (getIconForTheme currentTheme)
    (getLabelForTheme currentTheme)
    {["theme-dropdown"]}
    [ mkOptionEl (option_classes (strict_eq currentTheme (JStr THEMES.LIGHT)))
        THEMES.LIGHT ICONS.sun "Light";
      mkOptionEl (option_classes (strict_eq currentTheme (JStr THEMES.DARK)))
        THEMES.DARK ICONS.moon "Dark";
      mkOptionEl (option_classes (strict_eq currentTheme (JStr THEMES.SYSTEM)))
        THEMES.SYSTEM ICONS.system "System" ].

(** [document.createElement] followed by the assignments that fill the new
    element; the result is the reference to it. *)
Definition createElement (s : Selector) : M nat :=
  n ← gets (fun w => length (selectors (document w)));
  modify (set_document (set_selectors (fun l => l ++ [s])));;
  mret n.

(** [container.appendChild(selector)] *)
Definition appendChild (containerId : string) (sel : nat) : M unit :=
  modify (set_document (set_elements_by_id (alter (fun ch => ch ++ [sel]) containerId))).

Definition querySelectorAll_options (sel : nat) : M (list OptionEl) :=
  gets (fun w => default [] (options <$> selectors (document w) !! sel)).

(** The first line enters the call in the history; the rest is the body of
    the function.  The result is the new selector, or nothing ([undefined])
    after the early [return]. *)
Definition createThemeSelector (containerId : string) : M (option nat) :=
  log (Call_createThemeSelector containerId);;
  container ← gets (fun w => elements_by_id (document w) !! containerId);
  match container with
  | None => mret None
  | Some _ =>
      stored ← getStoredTheme;
      let currentTheme := js_or stored (JStr THEMES.SYSTEM) in
      selector ← createElement (selector_template currentTheme);
      appendChild containerId selector;;
      addEventListener (T_btn selector) click (H_toggle selector);;
      opts ← querySelectorAll_options selector;
      modify (set_listeners (fun ls =>
        ls ++ imap (fun i _ => mkListener (T_option selector i) click (H_select selector i))
                   opts));;
      addEventListener T_document click (H_close selector);;
      addEventListener (T_btn selector) keydown (H_escape selector);;
      mret (Some selector)
  end.

(** ** The closures registered by [createThemeSelector] *)

(** [dropdown.classList.remove('open'); btn.setAttribute('aria-expanded', 'false')] *)
Definition close_dropdown (s : Selector) : Selector :=
  btn_setAttribute "aria-expanded" (JStr "false")
    (set_dropdown_classList (classList_remove "open") s).

Definition toggle_dropdown (s : Selector) : Selector :=
  let isOpen := classList_contains "open" (dropdown_classList s) in
  btn_setAttribute "aria-expanded" (JBool (negb isOpen))
    (set_dropdown_classList (classList_toggle "open") s).

(** The click listener of option [i] of selector [sel]. *)
Definition option_click_handler (sel i : nat) : M unit :=
  o ← gets (fun w => selectors (document w) !! sel ≫= fun s => options s !! i);
  match o with
  | Some opt =>
      let theme := JStr (opt_dataset_theme opt) in
      setTheme theme (Some sel);;
      modify_selector sel close_dropdown
  | None => mret tt
  end.

Definition initThemeUI : M unit :=
  container ← gets (fun w => elements_by_id (document w) !! "themeToggle");
  tm ← gets (fun w => ThemeManager_defined (window w));
  if bool_decide (is_Some container) && tm
  then
    createThemeSelector "themeToggle";;
    setupSystemThemeListener None
  else mret tt.

(** ** Events *)

Inductive Event : Type :=
  (** a mouse click whose target is the given element *)
  | E_click (target : EventTarget)
  (** a key pressed while the given element has the focus *)
  | E_keydown (target : EventTarget) (key : string)
  (** the OS colour scheme changes; [matches] is the new value of the query *)
  | E_change (matches : bool)
  | E_DOMContentLoaded
  (** a key released while the given element has the focus *)
  | E_keyup (target : EventTarget) (key : string)
  (** the parser, still at work after the script, reaches a
      [meta[name="theme-color"]] tag that has the given attributes *)
  | E_parsed_meta (attrs : gmap string string).

(** Runs a handler on an event; the result tells whether the handler called
    [e.stopPropagation()]. *)
Definition run_handler (h : Handler) (ev : Event) : M bool :=
  match h with
  | H_toggle sel => modify_selector sel toggle_dropdown;; mret true
  | H_select sel i => option_click_handler sel i;; mret false
  | H_close sel => modify_selector sel close_dropdown;; mret false
  | H_escape sel =>
      match ev with
      | E_keydown _ key =>
          if bool_decide (key = "Escape")
          then modify_selector sel close_dropdown;; mret false
          else mret false
      | _ => mret false
      end
  | H_systemTheme callback => systemTheme_handler callback;; mret false
  | H_initThemeUI => initThemeUI;; mret false
  end.

Definition handlers_at (t : EventTarget) (ty : EventType) (w : World) : list Handler :=
  l_handler <$>
    filter (fun l => l_target l = t ∧ l_type l = ty) (listeners w).

(** The listeners of one target run in registration order; an exception
    thrown by one of them is reported and does not stop the others. *)
Fixpoint invoke_listeners (hs : list Handler) (ev : Event) (w : World) : bool * World :=
  match hs with
  | [] => (false, w)
  | h :: hs' =>
      let r := match run_handler h ev w with
               | Normal b w' => (b, w')
               | Throw _ w' => (false, w')
               end in
      let r' := invoke_listeners hs' ev r.2 in
      (r.1 || r'.1, r'.2)
  end.

(** Bubbling along the path from the target outwards. *)
Fixpoint propagate (path : list EventTarget) (ty : EventType) (ev : Event)
    (w : World) : World :=
  match path with
  | [] => w
  | t :: path' =>
      let r := invoke_listeners (handlers_at t ty w) ev w in
      if r.1 then r.2 else propagate path' ty ev r.2
  end.

Definition event_path (t : EventTarget) : list EventTarget :=
  match t with
  | T_btn _ | T_option _ _ => [t; T_document]
  | T_document => [T_document]
  | T_mediaQuery => [T_mediaQuery]
  end.

(** The button and the options are [<button>] elements.  The script never
    calls [preventDefault], so a focused button is activated by the keyboard:
    the browser fires a click at it when Enter goes down and when Space
    comes up. *)
Definition is_button (t : EventTarget) : bool :=
  match t with
  | T_btn _ | T_option _ _ => true
  | T_document | T_mediaQuery => false
  end.

Definition activates_on_keydown (t : EventTarget) (key : string) : bool :=
  is_button t && bool_decide (key = "Enter").

Definition activates_on_keyup (t : EventTarget) (key : string) : bool :=
  is_button t && bool_decide (key = " ").

(** What the parser does to the document when it reaches a theme-color
    meta tag: [querySelector] returns the first such tag in document order,
    so the new tag is the one found only when there was none before. *)
Definition parsed_meta (attrs : gmap string string) (d : Document) : Document :=
  set_meta_theme_color (fun m => match m with
                                 | Some a => Some a
                                 | None => Some attrs
                                 end) d.

(** The delivery of an event.  The elements with an id are not parsed in
    the same way: the script looks a container up only in [initThemeUI],
    which runs when the document is no longer loading, so
    [elements_by_id] is the document as parsed.  The meta tag is looked up
    by [applyTheme], and [initTheme] calls that while the document may still
    be loading; hence [E_parsed_meta]. *)
Definition dispatch (ev : Event) (w : World) : World :=
  match ev with
  | E_click t => propagate (event_path t) click ev w
  | E_keydown t key =>
      let w' := propagate (event_path t) keydown ev w in
      if activates_on_keydown t key
      then propagate (event_path t) click (E_click t) w'
      else w'
  | E_keyup t key =>
      if activates_on_keyup t key
      then propagate (event_path t) click (E_click t) w
      else w
  | E_parsed_meta attrs =>
      if bool_decide (readyState (document w) = loading)
      then set_document (parsed_meta attrs) w
      else w
  | E_change matches =>
      let w' := set_window (fun win =>
                  mkWindow (matchMedia_defined win) matches
                           (mq_addEventListener_defined win)
                           (ThemeManager_defined win)) w in
      propagate (event_path T_mediaQuery) change ev w'
  | E_DOMContentLoaded =>
      propagate (event_path T_document) DOMContentLoaded ev
        (set_document (set_readyState interactive) w)
  end.

Definition dispatch_all (evs : list Event) (w : World) : World :=
  foldl (fun w ev => dispatch ev w) w evs.

(** ** The top level of the script *)

Definition export_ThemeManager : M unit :=
  modify (set_window (fun win =>
    mkWindow (matchMedia_defined win) (prefers_dark win)
             (mq_addEventListener_defined win) true)).

Definition script : M unit :=
  initTheme;;
  export_ThemeManager;;
  rs ← gets (fun w => readyState (document w));
  if bool_decide (rs = loading)
  then addEventListener T_document DOMContentLoaded H_initThemeUI
  else initThemeUI.

(** A page load: the script runs, then the browser delivers events. *)
Definition page_load (evs : list Event) (w : World) : World :=
  dispatch_all evs (world_of (script w)).

(** * Vocabulary of the properties

    The functions of the script never loop and, the storage accessors
    apart, never throw; each of them is a function from the world it starts
    in to its result and the world it leaves.  The definitions below name
    these results, so that a property can say what a function returns and
    what it leaves behind. *)

(** The value [localStorage.getItem(THEME_KEY)] yields once [getStoredTheme]
    has caught a possible exception. *)
Definition stored_preference (w : World) : Value :=
  match getItem_fails (localStorage w) with
  | Some _ => JNull
  | None =>
      match items (localStorage w) !! THEME_KEY with
      | Some s => JStr s
      | None => JNull
      end
  end.

(** The query '(prefers-color-scheme: dark)' can be made and matches. *)
Definition dark_query_matches (w : World) : bool :=
  matchMedia_defined (window w) && prefers_dark (window w).

Definition system_theme (w : World) : string :=
  if dark_query_matches w then THEMES.DARK else THEMES.LIGHT.

Definition effective_theme (preference : Value) (w : World) : Value :=
  if strict_eq preference (JStr THEMES.SYSTEM) || negb (truthy preference)
  then JStr (system_theme w)
  else preference.

Definition theme_color (effectiveTheme : Value) : string :=
  if strict_eq effectiveTheme (JStr THEMES.DARK) then "#0f3460" else "#2c3e50".

(** The document once [effectiveTheme] has been applied to it. *)
Definition themed (effectiveTheme : Value) (d : Document) : Document :=
  set_meta_theme_color (fmap (fun a => <["content" := theme_color effectiveTheme]> a))
    (set_documentElement (fun a => <["data-theme" := ToString effectiveTheme]> a) d).

(** The world once [storeTheme theme] has returned. *)
Definition stored (theme : Value) (w : World) : World :=
  match setItem_fails (localStorage w) THEME_KEY (ToString theme) with
  | Some _ => w
  | None => set_items (fun m => <[THEME_KEY := ToString theme]> m) w
  end.

(** Two worlds that differ at most in their storage, and two completions
    that return the same value in such worlds. *)
Definition agree_but_storage (w1 w2 : World) : Prop :=
  window w1 = window w2 /\ document w1 = document w2 /\
  listeners w1 = listeners w2 /\ history w1 = history w2.

Definition same_but_storage {A} (c1 c2 : Completion A) : Prop :=
  match c1, c2 with
  | Normal a1 w1, Normal a2 w2 => a1 = a2 /\ agree_but_storage w1 w2
  | _, _ => False
  end.

(** The listeners [createThemeSelector] registers for selector [sel], in
    the order it registers them. *)
Definition selector_listeners (sel : nat) : list Listener :=
  [ mkListener (T_btn sel) click (H_toggle sel);
    mkListener (T_option sel 0) click (H_select sel 0);
    mkListener (T_option sel 1) click (H_select sel 1);
    mkListener (T_option sel 2) click (H_select sel 2);
    mkListener T_document click (H_close sel);
    mkListener (T_btn sel) keydown (H_escape sel) ].

(** The world once a selector showing [currentTheme] has been built,
    appended to the container and wired. *)
Definition mounted (containerId : string) (currentTheme : Value) (w : World) : World :=
  let n := length (selectors (document w)) in
  set_listeners (fun ls => ls ++ selector_listeners n)
    (set_document (fun d =>
       set_elements_by_id (alter (fun ch => ch ++ [n]) containerId)
         (set_selectors (fun l => l ++ [selector_template currentTheme]) d)) w).

(** A selector as the template builds it: three options, for "light",
    "dark" and "system" in this order. *)
Definition selector_wf (s : Selector) : Prop :=
  opt_dataset_theme <$> options s = [THEMES.LIGHT; THEMES.DARK; THEMES.SYSTEM].

(** What [setTheme theme] does to the selector it is given. *)
Definition selected (theme : Value) (s : Selector) : Selector :=
  set_options (map (fun opt =>
      set_opt_classList
        (classList_toggle_force "active"
           (strict_eq (JStr (opt_dataset_theme opt)) theme)) opt))
    (set_btn_label_textContent (getLabelForTheme theme)
       (set_btn_icon_innerHTML (getIconForTheme theme) s)).

(** The item kept under [THEME_KEY], whether or not it can be read. *)
Definition persisted (w : World) : option string :=
  items (localStorage w) !! THEME_KEY.

Definition is_theme (t : string) : Prop :=
  t = THEMES.LIGHT \/ t = THEMES.DARK \/ t = THEMES.SYSTEM.

(** How a world may differ from an earlier world of the same run: the
    history has only grown; and, if the selectors were well formed, they
    still are and the persisted item is the old one or one of the three
    themes. *)
Definition evolves (w w' : World) : Prop :=
  (exists h, history w' = history w ++ h) /\
  (Forall selector_wf (selectors (document w)) ->
   Forall selector_wf (selectors (document w')) /\
   (persisted w' = persisted w \/ exists t, is_theme t /\ persisted w' = Some t)).

(** The handlers registered in [ls] for events of type [ty] at [t]. *)
Definition handlers_of (t : EventTarget) (ty : EventType) (ls : list Listener)
    : list Handler :=
  l_handler <$> filter (fun l => l_target l = t ∧ l_type l = ty) ls.

(** A page on which no selector has been built and no listener registered. *)
Definition fresh (w : World) : Prop :=
  selectors (document w) = [] /\ listeners w = [].

Definition is_close (h : Handler) : Prop := exists k, h = H_close k.

Definition is_systemTheme (h : Handler) : Prop :=
  exists callback, h = H_systemTheme callback.

(** The test the change handler makes on the stored preference. *)
Definition follows_system (w : World) : bool :=
  strict_eq (stored_preference w) (JStr THEMES.SYSTEM)
  || negb (truthy (stored_preference w)).

(** The listener table as the script leaves it: option [i] of every
    selector built so far has exactly its own click listener, the click
    listeners of the document are the ones that close a dropdown, and the
    change listeners of the media query are handlers of
    [setupSystemThemeListener]. *)
Definition wired (w : World) : Prop :=
  (forall sel i,
     handlers_at (T_option sel i) click w =
     if bool_decide (sel < length (selectors (document w)) /\ i < 3)
     then [H_select sel i] else []) /\
  Forall is_close (handlers_at T_document click w) /\
  Forall is_systemTheme (handlers_at T_mediaQuery change w).

(** A selector whose dropdown is closed. *)
Definition closed (s : Selector) : Prop :=
  ("open" ∉ dropdown_classList s) /\ btn_attrs s !! "aria-expanded" = Some "false".

(** The [aria-expanded] attribute of the button says whether the dropdown
    is open. *)
Definition aria_synced (s : Selector) : Prop :=
  btn_attrs s !! "aria-expanded" =
  Some (if bool_decide ("open" ∈ dropdown_classList s) then "true" else "false").

(** The button and the highlighting of the options show one and the same
    theme. *)
Definition display_consistent (s : Selector) : Prop :=
  exists theme,
    btn_icon_innerHTML s = getIconForTheme theme /\
    btn_label_textContent s = getLabelForTheme theme /\
    forall o, o ∈ options s ->
      ("active" ∈ opt_classList o <-> JStr (opt_dataset_theme o) = theme).

(** Every selector of the page has the property [P]. *)
Definition all_selectors (P : Selector -> Prop) (w : World) : Prop :=
  Forall P (selectors (document w)).

(** The theme-color meta tag, when there is one, has the colour of the
    theme that [data-theme] names. *)
Definition theme_synced (d : Document) : Prop :=
  exists t,
    documentElement d !! "data-theme" = Some t /\
    forall m, meta_theme_color d = Some m ->
      m !! "content" = Some (if bool_decide (t = "dark") then "#0f3460" else "#2c3e50").

(** The theme is on the document. *)
Definition theme_applied (w : World) : Prop :=
  is_Some (documentElement (document w) !! "data-theme").

(** The attributes of the root and of the meta tag are those of [d]. *)
Definition same_theme (d d' : Document) : Prop :=
  documentElement d' = documentElement d /\ meta_theme_color d' = meta_theme_color d.

(** Nothing has been taken away: the listeners of [w] are still there, in
    front and in their order, and there are at least as many selectors. *)
Definition grown (w w' : World) : Prop :=
  (exists added, listeners w' = listeners w ++ added) /\
  length (selectors (document w)) <= length (selectors (document w')).

(** A property of the listener table and of the number of selectors, read
    off a world. *)
Definition wiring (W : list Listener -> nat -> Prop) (w : World) : Prop :=
  W (listeners w) (length (selectors (document w))).

(** The listeners of the buttons and of the document, as
    [createThemeSelector] registers them: the button of every selector has
    its toggle and its Escape listener and no other, the document has one
    closing click listener per selector, in the order of the selectors, and
    no keydown listener. *)
Definition button_wiring (ls : list Listener) (n : nat) : Prop :=
  (forall sel, handlers_of (T_btn sel) click ls =
               if bool_decide (sel < n) then [H_toggle sel] else []) /\
  (forall sel, handlers_of (T_btn sel) keydown ls =
               if bool_decide (sel < n) then [H_escape sel] else []) /\
  handlers_of T_document click ls = H_close <$> seq 0 n /\
  handlers_of T_document keydown ls = [].

(** [s'] shows what [s] shows: same icon, same label, same options. *)
Definition same_display (s s' : Selector) : Prop :=
  btn_icon_innerHTML s' = btn_icon_innerHTML s /\
  btn_label_textContent s' = btn_label_textContent s /\
  options s' = options s.

(** ** Sample worlds

    A page with a container "themeToggle", a theme-color meta tag and a
    working storage, still loading; the same page with something stored; and
    a page whose storage denies every access. *)

Definition working_storage (m : gmap string string) : Storage :=
  mkStorage m None (fun _ _ => None).

Definition denied_storage : Storage :=
  mkStorage ∅ (Some (DOMException "SecurityError"))
    (fun _ _ => Some (DOMException "SecurityError")).

Definition sample_document : Document :=
  mkDocument loading ∅ (Some ∅) (<["themeToggle" := []]> ∅) [].

Definition sample_world (st : Storage) (dark : bool) : World :=
  mkWorld st (mkWindow true dark true false) sample_document [] [].

Definition w_fresh : World := sample_world (working_storage ∅) false.
Definition w_blue : World :=
  sample_world (working_storage (<[THEME_KEY := "blue"]> ∅)) false.
Definition w_system : World :=
  sample_world (working_storage (<[THEME_KEY := "system"]> ∅)) false.
Definition w_light : World :=
  sample_world (working_storage (<[THEME_KEY := "light"]> ∅)) true.
Definition w_empty : World :=
  sample_world (working_storage (<[THEME_KEY := ""]> ∅)) false.
Definition w_denied : World := sample_world denied_storage false.

Definition w_system_dark : World :=
  sample_world (working_storage (<[THEME_KEY := "system"]> ∅)) true.

(** The fresh page once the script has run and the document is ready. *)
Definition w_widget : World := page_load [E_DOMContentLoaded] w_fresh.

(** A page whose storage holds an item of another script, and a page
    without the container of the widget. *)
Definition w_other_item : World :=
  sample_world (working_storage (<["lang" := "en"]> ∅)) false.

(** A page of a dark system whose theme-color meta tag comes after the
    script: the document has no such tag yet when the script runs. *)
Definition w_late_meta : World :=
  mkWorld (working_storage ∅) (mkWindow true true true false)
          (mkDocument loading ∅ None (<["themeToggle" := []]> ∅) []) [] [].

Definition w_no_mount : World :=
  mkWorld (working_storage ∅) (mkWindow true false true false)
          (mkDocument loading ∅ None ∅ []) [] [].

(** * Properties *)

(** ** What each function computes *)

Lemma bind_run {A B} (m : M A) (f : A -> M B) (w : World) :
  (m ≫= f) w =
  match m w with Normal a w' => f a w' | Throw e w' => Throw e w' end.
Proof. reflexivity. Qed.

Lemma bind_Normal {A B} (m : M A) (f : A -> M B) (w w' : World) (a : A) :
  m w = Normal a w' -> (m ≫= f) w = f a w'.
Proof. intros H. rewrite bind_run, H. reflexivity. Qed.

Lemma getSystemTheme_run (w : World) :
  getSystemTheme w = Normal (JStr (system_theme w)) w.
Proof.
  unfold getSystemTheme, system_theme, dark_query_matches.
  rewrite bind_run. simpl.
  destruct (matchMedia_defined (window w) && prefers_dark (window w)); reflexivity.
Qed.

Lemma getStoredTheme_run (w : World) :
  getStoredTheme w = Normal (stored_preference w) w.
Proof.
  unfold getStoredTheme, try_catch, localStorage_getItem, stored_preference.
  rewrite bind_run. simpl.
  destruct (getItem_fails (localStorage w)); reflexivity.
Qed.

Lemma storeTheme_run (theme : Value) (w : World) :
  storeTheme theme w = Normal tt (stored theme w).
Proof.
  unfold storeTheme, try_catch, localStorage_setItem, stored.
  rewrite bind_run. simpl.
  destruct (setItem_fails (localStorage w) THEME_KEY (ToString theme)); reflexivity.
Qed.

Lemma getEffectiveTheme_run (preference : Value) (w : World) :
  getEffectiveTheme preference w = Normal (effective_theme preference w) w.
Proof.
  unfold getEffectiveTheme, effective_theme.
  destruct (strict_eq preference (JStr THEMES.SYSTEM) || negb (truthy preference)).
  - apply getSystemTheme_run.
  - reflexivity.
Qed.

Lemma applyTheme_run (theme : Value) (w : World) :
  applyTheme theme w =
  Normal tt (set_document (themed (effective_theme theme w)) w).
Proof.
  unfold applyTheme.
  rewrite (bind_Normal _ _ _ _ _ (getEffectiveTheme_run theme w)).
  unfold documentElement_setAttribute, meta_setAttribute, themed, theme_color.
  repeat (rewrite bind_run; simpl).
  destruct w as [st win [rs de [m|] els sels] ls h]; reflexivity.
Qed.

Lemma initTheme_run (w : World) :
  let storedTheme := js_or (stored_preference w) (JStr THEMES.SYSTEM) in
  let w1 := set_history (fun h => h ++ [Call_initTheme]) w in
  initTheme w =
  Normal storedTheme (set_document (themed (effective_theme storedTheme w1)) w1).
Proof.
  intros storedTheme w1. unfold initTheme.
  rewrite bind_run. simpl. fold w1.
  rewrite (bind_Normal _ _ _ _ _ (getStoredTheme_run w1)).
  rewrite (bind_Normal _ _ _ _ _ (applyTheme_run _ w1)).
  reflexivity.
Qed.

(** ** Theme resolver *)

(** C1.  [getEffectiveTheme] returns the preferences "light" and "dark"
    unchanged whatever the system reports; for the preference "system", for
    an absent preference ([null], [undefined]) and for the empty string it
    returns the answer of the OS dark-mode query: "dark" when the query
    matches and "light" otherwise.  The world is left as it was. *)
Theorem getEffectiveTheme_resolves (w : World) :
  getEffectiveTheme (JStr "light") w = Normal (JStr "light") w /\
  getEffectiveTheme (JStr "dark") w = Normal (JStr "dark") w /\
  let os := JStr (if dark_query_matches w then "dark" else "light") in
  getEffectiveTheme (JStr "system") w = Normal os w /\
  getEffectiveTheme JNull w = Normal os w /\
  getEffectiveTheme JUndefined w = Normal os w /\
  getEffectiveTheme (JStr "") w = Normal os w.
Proof.
  repeat split; rewrite getEffectiveTheme_run; reflexivity.
Qed.

(** ** Preference store *)

Section PreferenceStore.
Variable w : World.

(** C3.  When [localStorage.getItem] throws, [getStoredTheme] returns
    [null]; when [localStorage.setItem] throws, [storeTheme] returns
    normally; and whatever the storage does, both functions complete
    normally: no storage failure reaches the caller. *)
Theorem storage_failures_not_surfaced :
  (forall e w', localStorage_getItem THEME_KEY w = Throw e w' ->
                getStoredTheme w = Normal JNull w) /\
  (forall theme e w', localStorage_setItem THEME_KEY theme w = Throw e w' ->
                storeTheme theme w = Normal tt w) /\
  (exists v, getStoredTheme w = Normal v w) /\
  (forall theme, exists w', storeTheme theme w = Normal tt w').
Proof.
  split; [|split; [|split]].
  - intros e w' H. rewrite getStoredTheme_run.
    unfold localStorage_getItem in H. rewrite bind_run in H. simpl in H.
    unfold stored_preference.
    destruct (getItem_fails (localStorage w)); [reflexivity | discriminate H].
  - intros theme e w' H. rewrite storeTheme_run.
    unfold localStorage_setItem in H. rewrite bind_run in H. simpl in H.
    unfold stored.
    destruct (setItem_fails (localStorage w) THEME_KEY (ToString theme));
      [reflexivity | discriminate H].
  - eexists. apply getStoredTheme_run.
  - intros theme. eexists. apply storeTheme_run.
Qed.

(** C6.  With a storage whose accessors do not throw, [storeTheme pref]
    followed by [getStoredTheme] returns [pref], for every string [pref]. *)
Theorem store_then_get_roundtrip (pref : string) :
  getItem_fails (localStorage w) = None ->
  setItem_fails (localStorage w) THEME_KEY pref = None ->
  exists w', storeTheme (JStr pref) w = Normal tt w' /\
             getStoredTheme w' = Normal (JStr pref) w' /\
             (storeTheme (JStr pref) ;; getStoredTheme) w = Normal (JStr pref) w'.
Proof.
  intros Hget Hset.
  assert (Hread : getStoredTheme (stored (JStr pref) w)
                  = Normal (JStr pref) (stored (JStr pref) w)).
  { rewrite getStoredTheme_run. f_equal.
    unfold stored_preference, stored. simpl. rewrite Hset. simpl.
    rewrite Hget. rewrite lookup_insert_eq. reflexivity. }
  exists (stored (JStr pref) w). split; [apply storeTheme_run|]. split; [exact Hread|].
  rewrite (bind_Normal _ _ _ _ _ (storeTheme_run _ w)). exact Hread.
Qed.
End PreferenceStore.

(** ** DOM applier *)

Lemma effective_theme_set_document (theme : Value) (f : Document -> Document) (w : World) :
  effective_theme theme (set_document f w) = effective_theme theme w.
Proof. reflexivity. Qed.

Lemma themed_twice (eff : Value) (d : Document) :
  themed eff (themed eff d) = themed eff d.
Proof.
  unfold themed, set_meta_theme_color, set_documentElement. simpl.
  rewrite insert_insert_eq.
  destruct (meta_theme_color d) as [m|]; simpl; [|reflexivity].
  rewrite insert_insert_eq. reflexivity.
Qed.

(** C5.  [applyTheme theme] sets the [data-theme] attribute of the document
    root to the effective theme; a theme-color meta tag, when there is one,
    gets the content "#0f3460" for the effective theme "dark" and "#2c3e50"
    otherwise, and no meta tag appears when there was none; nothing else
    changes.  Applying the same theme a second time leaves the world exactly
    as the first application left it. *)
Theorem applyTheme_sets_and_is_idempotent (theme : Value) (w : World) :
  exists eff w1,
    getEffectiveTheme theme w = Normal eff w /\
    applyTheme theme w = Normal tt w1 /\
    documentElement (document w1) !! "data-theme" = Some (ToString eff) /\
    meta_theme_color (document w1) =
      (fun a => <["content" := if strict_eq eff (JStr "dark")
                               then "#0f3460" else "#2c3e50"]> a)
        <$> meta_theme_color (document w) /\
    (window w1 = window w /\ localStorage w1 = localStorage w /\
     listeners w1 = listeners w /\ history w1 = history w) /\
    (applyTheme theme ;; applyTheme theme) w = applyTheme theme w.
Proof.
  exists (effective_theme theme w), (set_document (themed (effective_theme theme w)) w).
  split; [apply getEffectiveTheme_run|].
  split; [apply applyTheme_run|].
  split; [simpl; apply lookup_insert_eq|].
  split; [reflexivity|].
  split; [repeat split|].
  rewrite (bind_Normal _ _ _ _ _ (applyTheme_run theme w)).
  rewrite !applyTheme_run, effective_theme_set_document.
  destruct w as [st win d ls h]. unfold set_document. simpl.
  rewrite themed_twice. reflexivity.
Qed.

(** ** Initialisation *)

Lemma js_or_SYSTEM_falsy (v : Value) :
  truthy v = false -> js_or v (JStr THEMES.SYSTEM) = JStr THEMES.SYSTEM.
Proof. unfold js_or. intros ->. reflexivity. Qed.

Lemma stored_preference_cases (w : World) :
  stored_preference w = JNull \/ exists s, stored_preference w = JStr s.
Proof.
  unfold stored_preference.
  destruct (getItem_fails (localStorage w)); [left; reflexivity|].
  destruct (items (localStorage w) !! THEME_KEY); [right; eauto | left; reflexivity].
Qed.

Lemma getStoredTheme_inv (w w' : World) (v : Value) :
  getStoredTheme w = Normal v w' -> v = stored_preference w.
Proof. rewrite getStoredTheme_run. intros [= <- _]. reflexivity. Qed.

Lemma effective_theme_agree (theme : Value) (w1 w2 : World) :
  window w1 = window w2 -> effective_theme theme w1 = effective_theme theme w2.
Proof.
  intros H. unfold effective_theme, system_theme, dark_query_matches.
  rewrite H. reflexivity.
Qed.

(** C10.  [initTheme] always returns a non-empty string: the stored string
    when there is one and it is not empty, and "system" when the store
    yields [null] or the empty string.  A world whose store holds the empty
    string and one whose store holds nothing, alike otherwise, get the same
    result and the same document from [initTheme]. *)
Theorem initTheme_never_returns_empty (w : World) :
  exists s w',
    initTheme w = Normal (JStr s) w' /\ s <> "" /\
    (forall st, getStoredTheme w = Normal (JStr st) w -> st <> "" -> s = st) /\
    (getStoredTheme w = Normal JNull w \/ getStoredTheme w = Normal (JStr "") w ->
     s = "system") /\
    (forall w2, agree_but_storage w w2 ->
       getStoredTheme w = Normal JNull w ->
       getStoredTheme w2 = Normal (JStr "") w2 ->
       same_but_storage (initTheme w) (initTheme w2)).
Proof.
  pose proof (initTheme_run w) as Hrun. simpl in Hrun.
  destruct (stored_preference_cases w) as [Hsp | [st Hsp]].
  - rewrite Hsp in Hrun. eexists _, _. split; [exact Hrun|].
    split; [discriminate|]. split; [|split].
    + intros st H%getStoredTheme_inv. congruence.
    + reflexivity.
    + intros w2 (Hwin & Hdoc & Hls & Hh) _ H2%getStoredTheme_inv.
      rewrite Hrun. pose proof (initTheme_run w2) as Hrun2. simpl in Hrun2.
      rewrite <- H2 in Hrun2. rewrite Hrun2. simpl.
      split; [reflexivity|]. unfold agree_but_storage. simpl.
      rewrite Hwin, Hdoc, Hls, Hh.
      rewrite (effective_theme_agree _ _ (set_history (fun h => h ++ [Call_initTheme]) w2))
        by exact Hwin.
      repeat split; reflexivity.
  - rewrite Hsp in Hrun. destruct (decide (st = "")) as [-> | Hne].
    + eexists _, _. split; [exact Hrun|].
      split; [discriminate|]. split; [|split].
      * intros st H%getStoredTheme_inv. rewrite Hsp in H. congruence.
      * reflexivity.
      * intros w2 _ H%getStoredTheme_inv. congruence.
    + assert (Hor : js_or (JStr st) (JStr THEMES.SYSTEM) = JStr st).
      { unfold js_or. simpl. rewrite bool_decide_eq_false_2 by exact Hne. reflexivity. }
      rewrite Hor in Hrun.
      eexists _, _. split; [exact Hrun|].
      split; [exact Hne|]. split; [|split].
      * intros st' H%getStoredTheme_inv. rewrite Hsp in H. congruence.
      * intros [H%getStoredTheme_inv | H%getStoredTheme_inv]; congruence.
      * intros w2 _ H%getStoredTheme_inv. congruence.
Qed.

(** ** Change listener *)

Lemma systemTheme_handler_run (callback : option Callback) (w : World) :
  systemTheme_handler callback w =
  if strict_eq (stored_preference w) (JStr THEMES.SYSTEM)
     || negb (truthy (stored_preference w))
  then
    let w1 := set_document (themed (JStr (system_theme w))) w in
    Normal tt match callback with
              | Some f => set_history (fun h => h ++ [Call_callback f (JStr THEMES.SYSTEM)]) w1
              | None => w1
              end
  else Normal tt w.
Proof.
  unfold systemTheme_handler.
  rewrite (bind_Normal _ _ _ _ _ (getStoredTheme_run w)).
  destruct (strict_eq (stored_preference w) (JStr THEMES.SYSTEM)
            || negb (truthy (stored_preference w))); [|reflexivity].
  rewrite (bind_Normal _ _ _ _ _ (applyTheme_run _ w)).
  destruct callback; reflexivity.
Qed.

(** What the handler of the media query's change event does, by the stored
    preference it reads. *)
Lemma systemTheme_handler_by_preference (callback : option Callback) (w : World)
    (st : Value) :
  getStoredTheme w = Normal st w ->
  (st = JStr "system" \/ st = JNull \/ st = JStr "" ->
   exists w1,
     applyTheme (JStr "system") w = Normal tt w1 /\
     documentElement (document w1) !! "data-theme"
       = Some (if dark_query_matches w then "dark" else "light") /\
     systemTheme_handler callback w =
       Normal tt match callback with
                 | Some f => set_history (fun h => h ++ [Call_callback f (JStr "system")]) w1
                 | None => w1
                 end) /\
  (st = JStr "light" \/ st = JStr "dark" ->
   systemTheme_handler callback w = Normal tt w).
Proof.
  intros Hst%getStoredTheme_inv. split.
  - intros Hcase. eexists. split; [apply applyTheme_run|]. split.
    + simpl. rewrite lookup_insert_eq. unfold system_theme.
      destruct (dark_query_matches w); reflexivity.
    + rewrite systemTheme_handler_run, <- Hst.
      destruct Hcase as [-> | [-> | ->]]; reflexivity.
  - intros Hcase. rewrite systemTheme_handler_run, <- Hst.
    destruct Hcase as [-> | ->]; reflexivity.
Qed.

(** The event itself: with the handler as the only change listener, an OS
    change to [matches] leaves the world the handler leaves when it runs
    after the query has taken its new value. *)
Lemma change_event_runs_handler (callback : option Callback) (matches : bool) (w : World) :
  handlers_at T_mediaQuery change w = [H_systemTheme callback] ->
  let w' := set_window (fun win =>
              mkWindow (matchMedia_defined win) matches
                       (mq_addEventListener_defined win) (ThemeManager_defined win)) w in
  dispatch (E_change matches) w = world_of (systemTheme_handler callback w').
Proof.
  intros H w'. unfold dispatch. fold w'. simpl.
  replace (handlers_at T_mediaQuery change w') with [H_systemTheme callback]
    by (rewrite <- H; reflexivity).
  simpl. rewrite bind_run.
  destruct (systemTheme_handler callback w'); reflexivity.
Qed.

(** ** Widget *)

Lemma createThemeSelector_run (containerId : string) (w : World) :
  let w1 := set_history (fun h => h ++ [Call_createThemeSelector containerId]) w in
  createThemeSelector containerId w =
  match elements_by_id (document w) !! containerId with
  | None => Normal None w1
  | Some _ =>
      Normal (Some (length (selectors (document w))))
             (mounted containerId (js_or (stored_preference w) (JStr THEMES.SYSTEM)) w1)
  end.
Proof.
  intros w1. unfold createThemeSelector. rewrite bind_run. simpl.
  rewrite bind_run. simpl.
  destruct (elements_by_id (document w) !! containerId) as [ch|] eqn:Hc; [|reflexivity].
  rewrite (bind_Normal _ _ _ _ _ (getStoredTheme_run _)).
  unfold createElement, appendChild, addEventListener, querySelectorAll_options.
  repeat (rewrite bind_run; simpl).
  rewrite lookup_app_r by reflexivity.
  replace (length (selectors (document w)) - length (selectors (document w))) with 0 by lia.
  simpl. unfold mret, M_ret. f_equal.
  destruct w as [st win d ls h]. unfold mounted, set_listeners, set_document. simpl.
  f_equal. rewrite <- !app_assoc. reflexivity.
Qed.

(** C8.  Without an element of the given id, [createThemeSelector] returns
    normally and without a selector; storage, window, document and the
    registered listeners are what they were. *)
Theorem createThemeSelector_without_container (containerId : string) (w : World) :
  elements_by_id (document w) !! containerId = None ->
  exists w',
    createThemeSelector containerId w = Normal None w' /\
    document w' = document w /\
    listeners w' = listeners w /\
    localStorage w' = localStorage w /\
    window w' = window w.
Proof.
  intros H. eexists. split.
  - rewrite createThemeSelector_run, H. reflexivity.
  - repeat split.
Qed.

Lemma setTheme_run (theme : Value) (sel : nat) (w : World) :
  setTheme theme (Some sel) w =
  Normal tt
    (set_document (set_selectors (alter (selected theme) sel))
       (set_document (themed (effective_theme theme w)) (stored theme w))).
Proof.
  unfold setTheme.
  rewrite (bind_Normal _ _ _ _ _ (storeTheme_run theme w)).
  rewrite (bind_Normal _ _ _ _ _ (applyTheme_run theme _)).
  unfold modify_selector. repeat (rewrite bind_run; simpl).
  unfold modify. f_equal.
  replace (effective_theme theme (stored theme w)) with (effective_theme theme w)
    by (unfold stored; destruct (setItem_fails _ _ _); reflexivity).
  unfold set_document, set_selectors, selected. simpl. do 2 f_equal.
  rewrite !list_alter_alter_eq. reflexivity.
Qed.

Lemma setTheme_no_selector_run (theme : Value) (w : World) :
  setTheme theme None w =
  Normal tt (set_document (themed (effective_theme theme w)) (stored theme w)).
Proof.
  unfold setTheme.
  rewrite (bind_Normal _ _ _ _ _ (storeTheme_run theme w)).
  rewrite (bind_Normal _ _ _ _ _ (applyTheme_run theme _)).
  replace (effective_theme theme (stored theme w)) with (effective_theme theme w)
    by (unfold stored; destruct (setItem_fails _ _ _); reflexivity).
  reflexivity.
Qed.

Lemma option_click_handler_run (sel i : nat) (w : World) :
  option_click_handler sel i w =
  match selectors (document w) !! sel ≫= fun s => options s !! i with
  | Some opt =>
      let theme := JStr (opt_dataset_theme opt) in
      Normal tt
        (set_document (set_selectors (alter close_dropdown sel))
           (set_document (set_selectors (alter (selected theme) sel))
              (set_document (themed (effective_theme theme w)) (stored theme w))))
  | None => Normal tt w
  end.
Proof.
  unfold option_click_handler. rewrite bind_run. simpl.
  destruct (selectors (document w) !! sel ≫= fun s => options s !! i) as [opt|];
    [|reflexivity].
  rewrite (bind_Normal _ _ _ _ _ (setTheme_run _ sel w)). reflexivity.
Qed.

Lemma stored_document (theme : Value) (w : World) :
  document (stored theme w) = document w.
Proof. unfold stored. destruct (setItem_fails _ _ _); reflexivity. Qed.

Lemma stored_window (theme : Value) (w : World) :
  window (stored theme w) = window w.
Proof. unfold stored. destruct (setItem_fails _ _ _); reflexivity. Qed.

Lemma stored_listeners (theme : Value) (w : World) :
  listeners (stored theme w) = listeners w.
Proof. unfold stored. destruct (setItem_fails _ _ _); reflexivity. Qed.

Lemma stored_history (theme : Value) (w : World) :
  history (stored theme w) = history w.
Proof. unfold stored. destruct (setItem_fails _ _ _); reflexivity. Qed.

Lemma classList_remove_spec (c : string) (cl : gset string) :
  c ∉ classList_remove c cl.
Proof.
  unfold classList_remove. intros [_ H]%elem_of_difference.
  apply H, elem_of_singleton. reflexivity.
Qed.

Lemma active_after_toggle (force : bool) (cl : gset string) :
  "active" ∈ classList_toggle_force "active" force cl <-> force = true.
Proof.
  unfold classList_toggle_force. destruct force.
  - split; [reflexivity|]. intros _.
    apply elem_of_union. right. apply elem_of_singleton. reflexivity.
  - split; [|intros Hf; discriminate Hf].
    intros Hin. exfalso. exact (classList_remove_spec "active" cl Hin).
Qed.

Lemma selector_wf_options (s : Selector) :
  selector_wf s ->
  exists o0 o1 o2,
    options s = [o0; o1; o2] /\
    opt_dataset_theme o0 = THEMES.LIGHT /\
    opt_dataset_theme o1 = THEMES.DARK /\
    opt_dataset_theme o2 = THEMES.SYSTEM.
Proof.
  unfold selector_wf. intros H.
  destruct (options s) as [|o0 [|o1 [|o2 [|o3 l]]]]; simplify_eq/=.
  eauto 10.
Qed.

Lemma selector_wf_lookup (s : Selector) (i : nat) (opt : OptionEl) :
  selector_wf s -> options s !! i = Some opt -> is_theme (opt_dataset_theme opt).
Proof.
  intros Hwf Hi.
  destruct (selector_wf_options s Hwf) as (o0 & o1 & o2 & Hopts & H0 & H1 & H2).
  rewrite Hopts in Hi. unfold is_theme.
  destruct i as [|[|[|i]]]; simpl in Hi; [| | |discriminate Hi];
    injection Hi as <-; auto.
Qed.


(** ** The event loop

    Whatever relation between worlds is reflexive, transitive, kept by every
    handler and by the two changes the browser itself makes when it raises
    an event, is kept by the delivery of any sequence of events. *)

Section EventLoop.
Variable R : World -> World -> Prop.
Hypothesis R_refl : forall w, R w w.
Hypothesis R_trans : forall w1 w2 w3, R w1 w2 -> R w2 w3 -> R w1 w3.
Hypothesis R_handler : forall h ev w, R w (world_of (run_handler h ev w)).
Hypothesis R_window : forall f w, R w (set_window f w).
Hypothesis R_readyState : forall r w, R w (set_document (set_readyState r) w).
Hypothesis R_parsed_meta : forall attrs w, R w (set_document (parsed_meta attrs) w).

Lemma invoke_listeners_keeps (hs : list Handler) (ev : Event) (w : World) :
  R w (invoke_listeners hs ev w).2.
Proof using R_refl R_trans R_handler.
  revert w. induction hs as [|h hs IH]; intros w; simpl; [apply R_refl|].
  eapply R_trans; [|apply IH].
  pose proof (R_handler h ev w) as Hh.
  destruct (run_handler h ev w); exact Hh.
Qed.

Lemma propagate_keeps (path : list EventTarget) (ty : EventType) (ev : Event)
    (w : World) :
  R w (propagate path ty ev w).
Proof using R_refl R_trans R_handler.
  revert w. induction path as [|t path IH]; intros w; simpl; [apply R_refl|].
  pose proof (invoke_listeners_keeps (handlers_at t ty w) ev w) as Hi.
  destruct (invoke_listeners (handlers_at t ty w) ev w).1; [exact Hi|].
  eapply R_trans; [exact Hi | apply IH].
Qed.

Lemma dispatch_keeps (ev : Event) (w : World) : R w (dispatch ev w).
Proof using R_refl R_trans R_handler R_window R_readyState R_parsed_meta.
  destruct ev as [t | t key | matches | | t key | attrs]; unfold dispatch.
  - apply propagate_keeps.
  - cbv zeta. destruct (activates_on_keydown t key); [|apply propagate_keeps].
    eapply R_trans; apply propagate_keeps.
  - eapply R_trans; [apply R_window | apply propagate_keeps].
  - eapply R_trans; [apply R_readyState | apply propagate_keeps].
  - destruct (activates_on_keyup t key); [apply propagate_keeps | apply R_refl].
  - destruct (bool_decide _); [apply R_parsed_meta | apply R_refl].
Qed.

Lemma dispatch_all_keeps (evs : list Event) (w : World) : R w (dispatch_all evs w).
Proof using R_refl R_trans R_handler R_window R_readyState R_parsed_meta.
  revert w. induction evs as [|ev evs IH]; intros w; simpl; [apply R_refl|].
  eapply R_trans; [apply dispatch_keeps | apply IH].
Qed.
End EventLoop.

(** ** Runs of the page *)

Lemma evolves_refl (w : World) : evolves w w.
Proof.
  split; [exists []; symmetry; apply app_nil_r|].
  intros H. split; [exact H | left; reflexivity].
Qed.

Lemma evolves_trans (w1 w2 w3 : World) :
  evolves w1 w2 -> evolves w2 w3 -> evolves w1 w3.
Proof.
  intros [[h12 Hh12] H12] [[h23 Hh23] H23]. split.
  - exists (h12 ++ h23). rewrite Hh23, Hh12, app_assoc. reflexivity.
  - intros Hwf. destruct (H12 Hwf) as [Hwf2 Hp2]. destruct (H23 Hwf2) as [Hwf3 Hp3].
    split; [exact Hwf3|].
    destruct Hp3 as [Hp3 | Hp3]; [rewrite Hp3; exact Hp2 | right; exact Hp3].
Qed.

(** Changes that touch neither the history nor the store, and keep the
    selectors well formed. *)
Lemma evolves_frame (w w' : World) :
  history w' = history w ->
  localStorage w' = localStorage w ->
  (Forall selector_wf (selectors (document w)) ->
   Forall selector_wf (selectors (document w'))) ->
  evolves w w'.
Proof.
  intros Hh Hst Hwf. split.
  - exists []. rewrite Hh, app_nil_r. reflexivity.
  - intros H. split; [auto|]. left. unfold persisted. rewrite Hst. reflexivity.
Qed.

Lemma Forall_wf_alter (f : Selector -> Selector) (sel : nat) (l : list Selector) :
  (forall s, selector_wf s -> selector_wf (f s)) ->
  Forall selector_wf l -> Forall selector_wf (alter f sel l).
Proof. intros Hf Hl. apply Forall_alter; auto. Qed.

Lemma close_dropdown_wf (s : Selector) : selector_wf s -> selector_wf (close_dropdown s).
Proof. intros H. exact H. Qed.

Lemma toggle_dropdown_wf (s : Selector) : selector_wf s -> selector_wf (toggle_dropdown s).
Proof. intros H. exact H. Qed.

Lemma selected_wf (theme : Value) (s : Selector) :
  selector_wf s -> selector_wf (selected theme s).
Proof.
  unfold selector_wf, selected. simpl. intros H.
  rewrite <- H, <- list_fmap_compose. reflexivity.
Qed.

Lemma selector_template_wf (currentTheme : Value) :
  selector_wf (selector_template currentTheme).
Proof. reflexivity. Qed.

Lemma evolves_modify_selector (f : Selector -> Selector) (sel : nat) (w : World) :
  (forall s, selector_wf s -> selector_wf (f s)) ->
  evolves w (set_document (set_selectors (alter f sel)) w).
Proof.
  intros Hf. apply evolves_frame; try reflexivity.
  simpl. apply Forall_wf_alter, Hf.
Qed.

Lemma evolves_themed (eff : Value) (w : World) :
  evolves w (set_document (themed eff) w).
Proof. apply evolves_frame; try reflexivity. intros H; exact H. Qed.

Lemma evolves_log (c : Call) (w : World) :
  evolves w (set_history (fun h => h ++ [c]) w).
Proof.
  split; [exists [c]; reflexivity|].
  intros H. split; [exact H | left; reflexivity].
Qed.

Lemma evolves_set_listeners (f : list Listener -> list Listener) (w : World) :
  evolves w (set_listeners f w).
Proof. apply evolves_frame; try reflexivity. intros H; exact H. Qed.

Lemma evolves_set_window (f : Window -> Window) (w : World) :
  evolves w (set_window f w).
Proof. apply evolves_frame; try reflexivity. intros H; exact H. Qed.

Lemma evolves_set_readyState (r : ReadyState) (w : World) :
  evolves w (set_document (set_readyState r) w).
Proof. apply evolves_frame; try reflexivity. intros H; exact H. Qed.

Lemma evolves_stored (t : string) (w : World) :
  is_theme t -> evolves w (stored (JStr t) w).
Proof.
  intros Ht. split.
  - exists []. rewrite stored_history, app_nil_r. reflexivity.
  - intros Hwf. rewrite stored_document. split; [exact Hwf|].
    unfold stored. simpl. destruct (setItem_fails _ _ _); [left; reflexivity|].
    right. exists t. split; [exact Ht|]. unfold persisted. simpl.
    apply lookup_insert_eq.
Qed.

Lemma evolves_mounted (containerId : string) (currentTheme : Value) (w : World) :
  evolves w (mounted containerId currentTheme w).
Proof.
  apply evolves_frame; try reflexivity.
  simpl. intros H. apply Forall_app. split; [exact H|].
  apply Forall_singleton, selector_template_wf.
Qed.

Lemma evolves_cond (w w' : World) :
  (exists h, history w' = history w ++ h) ->
  (Forall selector_wf (selectors (document w)) -> evolves w w') ->
  evolves w w'.
Proof.
  intros Hh H. split; [exact Hh|]. intros Hwf. exact (proj2 (H Hwf) Hwf).
Qed.

Lemma setupSystemThemeListener_run (callback : option Callback) (w : World) :
  setupSystemThemeListener callback w =
  Normal tt
    (if matchMedia_defined (window w)
     then set_listeners
            (fun ls => ls ++ [mkListener T_mediaQuery change (H_systemTheme callback)]) w
     else w).
Proof.
  unfold setupSystemThemeListener, mediaQuery_addListener, addEventListener.
  rewrite bind_run. simpl.
  destruct (matchMedia_defined (window w)); [|reflexivity].
  destruct (mq_addEventListener_defined (window w)); reflexivity.
Qed.

Lemma initThemeUI_run (w : World) :
  initThemeUI w =
  if bool_decide (is_Some (elements_by_id (document w) !! "themeToggle"))
     && ThemeManager_defined (window w)
  then (createThemeSelector "themeToggle" ;; setupSystemThemeListener None) w
  else Normal tt w.
Proof.
  unfold initThemeUI. rewrite bind_run. simpl. rewrite bind_run. simpl.
  destruct (bool_decide _ && _); reflexivity.
Qed.

Lemma createThemeSelector_evolves (containerId : string) (w : World) :
  evolves w (world_of (createThemeSelector containerId w)).
Proof.
  rewrite createThemeSelector_run.
  destruct (elements_by_id (document w) !! containerId); simpl.
  - eapply evolves_trans; [apply evolves_log | apply evolves_mounted].
  - apply evolves_log.
Qed.

Lemma setupSystemThemeListener_evolves (callback : option Callback) (w : World) :
  evolves w (world_of (setupSystemThemeListener callback w)).
Proof.
  rewrite setupSystemThemeListener_run. simpl.
  destruct (matchMedia_defined (window w));
    [apply evolves_set_listeners | apply evolves_refl].
Qed.

Lemma initThemeUI_evolves (w : World) : evolves w (world_of (initThemeUI w)).
Proof.
  rewrite initThemeUI_run.
  destruct (bool_decide _ && _); [|apply evolves_refl].
  rewrite bind_run.
  pose proof (createThemeSelector_evolves "themeToggle" w) as Hc.
  rewrite createThemeSelector_run in Hc |- *.
  destruct (elements_by_id (document w) !! "themeToggle"); simpl in Hc |- *;
    (eapply evolves_trans; [exact Hc | apply setupSystemThemeListener_evolves]).
Qed.

Lemma systemTheme_handler_evolves (callback : option Callback) (w : World) :
  evolves w (world_of (systemTheme_handler callback w)).
Proof.
  rewrite systemTheme_handler_run.
  destruct (strict_eq _ _ || negb _); simpl; [|apply evolves_refl].
  destruct callback; [|apply evolves_themed].
  eapply evolves_trans; [apply evolves_themed | apply evolves_log].
Qed.

Lemma option_click_handler_evolves (sel i : nat) (w : World) :
  evolves w (world_of (option_click_handler sel i w)).
Proof.
  rewrite option_click_handler_run.
  destruct (selectors (document w) !! sel) as [s|] eqn:Hs; simpl; [|apply evolves_refl].
  destruct (options s !! i) as [opt|] eqn:Ho; simpl; [|apply evolves_refl].
  apply evolves_cond.
  - exists []. simpl. rewrite stored_history, app_nil_r. reflexivity.
  - intros Hwf.
    assert (Ht : is_theme (opt_dataset_theme opt))
      by exact (selector_wf_lookup s i opt (Forall_lookup_1 _ _ _ _ Hwf Hs) Ho).
    eapply evolves_trans; [apply evolves_stored, Ht|].
    eapply evolves_trans; [apply evolves_themed|].
    eapply evolves_trans;
      [apply evolves_modify_selector, selected_wf
      |apply evolves_modify_selector, close_dropdown_wf].
Qed.

Lemma run_handler_evolves (h : Handler) (ev : Event) (w : World) :
  evolves w (world_of (run_handler h ev w)).
Proof.
  destruct h as [sel | sel i | sel | sel | callback |]; unfold run_handler.
  - apply (evolves_modify_selector toggle_dropdown sel w), toggle_dropdown_wf.
  - rewrite bind_run.
    pose proof (option_click_handler_evolves sel i w) as H.
    destruct (option_click_handler sel i w); exact H.
  - apply (evolves_modify_selector close_dropdown sel w), close_dropdown_wf.
  - destruct ev as [t | t key | matches | | t key | attrs]; try apply evolves_refl.
    destruct (bool_decide (key = "Escape")); [|apply evolves_refl].
    apply (evolves_modify_selector close_dropdown sel w), close_dropdown_wf.
  - rewrite bind_run.
    pose proof (systemTheme_handler_evolves callback w) as H.
    destruct (systemTheme_handler callback w); exact H.
  - rewrite bind_run.
    pose proof (initThemeUI_evolves w) as H.
    destruct (initThemeUI w); exact H.
Qed.

Lemma dispatch_all_evolves (evs : list Event) (w : World) :
  evolves w (dispatch_all evs w).
Proof.
  apply dispatch_all_keeps.
  - apply evolves_refl.
  - apply evolves_trans.
  - apply run_handler_evolves.
  - apply evolves_set_window.
  - apply evolves_set_readyState.
  - intros attrs w0. apply evolves_frame; try reflexivity. intros H; exact H.
Qed.

(** The script: [initTheme] first, then the export, then the widget or the
    listener that will build it. *)
Lemma script_run (w : World) :
  let w1 := world_of (initTheme w) in
  let w2 := world_of (export_ThemeManager w1) in
  script w =
  if bool_decide (readyState (document w2) = loading)
  then addEventListener T_document DOMContentLoaded H_initThemeUI w2
  else initThemeUI w2.
Proof.
  intros w1 w2. unfold script.
  pose proof (initTheme_run w) as Hi. simpl in Hi.
  rewrite (bind_Normal _ _ _ _ _ Hi).
  unfold w2, w1. rewrite Hi. cbn [world_of].
  rewrite bind_run. unfold export_ThemeManager at 1, modify at 1.
  rewrite bind_run. unfold gets at 1. cbn [world_of export_ThemeManager modify].
  destruct (bool_decide _); reflexivity.
Qed.

Lemma script_evolves (w : World) :
  evolves w (world_of (script w)) /\
  exists h, history (world_of (script w)) = history w ++ Call_initTheme :: h.
Proof.
  rewrite script_run.
  pose proof (initTheme_run w) as Hi. simpl in Hi.
  set (w1 := world_of (initTheme w)).
  set (w2 := world_of (export_ThemeManager w1)).
  assert (H01 : evolves w w1).
  { unfold w1. rewrite Hi.
    eapply evolves_trans; [apply evolves_log | apply evolves_themed]. }
  assert (H12 : evolves w1 w2) by apply evolves_set_window.
  assert (Hh : history w2 = history w ++ [Call_initTheme]).
  { unfold w2, w1. rewrite Hi. reflexivity. }
  assert (H23 : evolves w2
            (world_of (if bool_decide (readyState (document w2) = loading)
                       then addEventListener T_document DOMContentLoaded H_initThemeUI w2
                       else initThemeUI w2))).
  { destruct (bool_decide _); [apply evolves_set_listeners | apply initThemeUI_evolves]. }
  split.
  - eapply evolves_trans; [exact H01|]. eapply evolves_trans; [exact H12 | exact H23].
  - destruct H23 as [[h Hh3] _]. exists h.
    rewrite Hh3, Hh, <- app_assoc. reflexivity.
Qed.

Lemma page_load_evolves (evs : list Event) (w : World) :
  evolves w (page_load evs w) /\
  exists h, history (page_load evs w) = history w ++ Call_initTheme :: h.
Proof.
  unfold page_load. destruct (script_evolves w) as [Hs [h Hh]].
  pose proof (dispatch_all_evolves evs (world_of (script w))) as Hd.
  split; [eapply evolves_trans; eassumption|].
  destruct Hd as [[h' Hh'] _]. exists (h ++ h').
  rewrite Hh', Hh, <- app_assoc. reflexivity.
Qed.

(** When the script reaches the widget, or registers the listener that will
    build it, the theme is on the document already and no selector has been
    added. *)
Lemma script_applies_theme_first (w : World) :
  let w2 := world_of (export_ThemeManager (world_of (initTheme w))) in
  documentElement (document w2) !! "data-theme"
    = Some (ToString (effective_theme (js_or (stored_preference w) (JStr THEMES.SYSTEM)) w)) /\
  selectors (document w2) = selectors (document w) /\
  listeners w2 = listeners w /\
  script w =
    if bool_decide (readyState (document w2) = loading)
    then addEventListener T_document DOMContentLoaded H_initThemeUI w2
    else initThemeUI w2.
Proof.
  intros w2. split; [|split; [|split]].
  - unfold w2. pose proof (initTheme_run w) as Hi. simpl in Hi. rewrite Hi.
    simpl. apply lookup_insert_eq.
  - unfold w2. pose proof (initTheme_run w) as Hi. simpl in Hi. rewrite Hi.
    reflexivity.
  - unfold w2. pose proof (initTheme_run w) as Hi. simpl in Hi. rewrite Hi.
    reflexivity.
  - apply script_run.
Qed.

(** In the history of a page load every entry into [createThemeSelector]
    comes after an entry into [initTheme]. *)
Lemma history_initTheme_first (w : World) (evs : list Event)
    (h1 h2 : list Call) (containerId : string) :
  history (page_load evs w)
    = history w ++ h1 ++ Call_createThemeSelector containerId :: h2 ->
  Call_initTheme ∈ h1.
Proof.
  intros H. destruct (page_load_evolves evs w) as [_ [h Hh]].
  rewrite Hh in H. apply app_inv_head in H.
  destruct h1 as [|c h1]; simpl in H; [discriminate H|].
  injection H as <- _. apply list_elem_of_here.
Qed.

(** ** The persisted preference *)





Lemma system_theme_agree (w1 w2 : World) :
  window w1 = window w2 -> system_theme w1 = system_theme w2.
Proof. intros H. unfold system_theme, dark_query_matches. rewrite H. reflexivity. Qed.




(** ** The loaded page

    The listener table of a page loaded from a fresh document, and what the
    delivery of a click on an option and of a change of the OS colour scheme
    does there. *)

Lemma handlers_at_of t ty w : handlers_at t ty w = handlers_of t ty (listeners w).
Proof. reflexivity. Qed.

Lemma handlers_of_app t ty ls1 ls2 :
  handlers_of t ty (ls1 ++ ls2) = handlers_of t ty ls1 ++ handlers_of t ty ls2.
Proof. unfold handlers_of. rewrite filter_app, fmap_app. reflexivity. Qed.

Ltac filter_listeners :=
  unfold handlers_of, selector_listeners;
  repeat first
    [ rewrite filter_cons_True by (simpl; split; congruence)
    | rewrite filter_cons_False by (simpl; intros [? ?]; congruence) ];
  rewrite ?filter_nil.

Lemma handlers_of_selector_option (n sel i : nat) :
  handlers_of (T_option sel i) click (selector_listeners n) =
  if bool_decide (sel = n /\ i < 3) then [H_select sel i] else [].
Proof.
  destruct (decide (sel = n)) as [-> | Hne].
  - destruct i as [|[|[|i]]].
    1-3: rewrite bool_decide_eq_true_2 by (split; [reflexivity | lia]);
         filter_listeners; reflexivity.
    rewrite bool_decide_eq_false_2 by (intros [_ H]; lia).
    filter_listeners. reflexivity.
  - rewrite bool_decide_eq_false_2 by (intros [H _]; congruence).
    filter_listeners. reflexivity.
Qed.

Lemma handlers_of_selector_document (n : nat) :
  handlers_of T_document click (selector_listeners n) = [H_close n].
Proof. filter_listeners. reflexivity. Qed.

Lemma handlers_of_selector_mediaQuery (n : nat) :
  handlers_of T_mediaQuery change (selector_listeners n) = [].
Proof. filter_listeners. reflexivity. Qed.

Lemma wired_same (w w' : World) :
  listeners w' = listeners w ->
  length (selectors (document w')) = length (selectors (document w)) ->
  wired w -> wired w'.
Proof.
  intros Hl Hn (Ho & Hd & Hm). unfold wired. rewrite !handlers_at_of in *.
  rewrite Hl, Hn.
  split; [intros sel i; rewrite handlers_at_of, Hl; apply Ho|].
  split; [exact Hd | exact Hm].
Qed.

Lemma wired_fresh (w : World) : fresh w -> wired w.
Proof.
  intros [Hs Hl]. unfold wired. split; [|split].
  - intros sel i. rewrite handlers_at_of, Hl, Hs.
    rewrite bool_decide_eq_false_2 by (simpl; intros [H _]; lia). reflexivity.
  - rewrite handlers_at_of, Hl. apply Forall_nil_2.
  - rewrite handlers_at_of, Hl. apply Forall_nil_2.
Qed.

Lemma wired_mounted (containerId : string) (currentTheme : Value) (w : World) :
  wired w -> wired (mounted containerId currentTheme w).
Proof.
  intros (Ho & Hd & Hm). split; [|split].
  - intros sel i. rewrite handlers_at_of. simpl. rewrite handlers_of_app.
    rewrite <- handlers_at_of, Ho, handlers_of_selector_option.
    rewrite length_app. simpl.
    set (n := length (selectors (document w))).
    repeat case_bool_decide; try reflexivity; exfalso; lia.
  - rewrite handlers_at_of. simpl. rewrite handlers_of_app, handlers_of_selector_document.
    apply Forall_app. split; [exact Hd|].
    apply Forall_singleton. eexists. reflexivity.
  - rewrite handlers_at_of. simpl.
    rewrite handlers_of_app, handlers_of_selector_mediaQuery, app_nil_r. exact Hm.
Qed.

Lemma wired_add_listener (l : Listener) (w : World) :
  (l_target l = T_mediaQuery /\ is_systemTheme (l_handler l))
  \/ l_type l = DOMContentLoaded ->
  wired w -> wired (set_listeners (fun ls => ls ++ [l]) w).
Proof.
  intros Hl (Ho & Hd & Hm).
  assert (Hnone : forall t, t <> T_mediaQuery -> handlers_of t click [l] = []).
  { intros t Ht. unfold handlers_of.
    rewrite filter_cons_False; [reflexivity|].
    intros [H1 H2]. destruct Hl as [[Hl _] | Hl]; congruence. }
  split; [|split].
  - intros sel i. rewrite handlers_at_of. simpl.
    rewrite handlers_of_app, Hnone, app_nil_r by discriminate. apply Ho.
  - rewrite handlers_at_of. simpl.
    rewrite handlers_of_app, Hnone, app_nil_r by discriminate. exact Hd.
  - rewrite handlers_at_of. simpl. rewrite handlers_of_app.
    apply Forall_app. split; [exact Hm|].
    unfold handlers_of. rewrite filter_cons, filter_nil.
    case_decide as Hc; [|apply Forall_nil_2].
    apply Forall_singleton. destruct Hl as [[_ Hl] | Hl]; [exact Hl|].
    destruct Hc as [_ Hc]. congruence.
Qed.

Lemma wired_modify_selector (f : Selector -> Selector) (sel : nat) (w : World) :
  wired w -> wired (set_document (set_selectors (alter f sel)) w).
Proof. apply wired_same; [reflexivity|]. simpl. apply length_alter. Qed.

Lemma option_click_handler_wiring (sel i : nat) (w : World) :
  listeners (world_of (option_click_handler sel i w)) = listeners w /\
  length (selectors (document (world_of (option_click_handler sel i w))))
    = length (selectors (document w)).
Proof.
  rewrite option_click_handler_run.
  destruct (selectors (document w) !! sel ≫= fun s => options s !! i); simpl.
  - rewrite stored_listeners, stored_document, !length_alter. split; reflexivity.
  - split; reflexivity.
Qed.

Lemma systemTheme_handler_wiring (callback : option Callback) (w : World) :
  listeners (world_of (systemTheme_handler callback w)) = listeners w /\
  length (selectors (document (world_of (systemTheme_handler callback w))))
    = length (selectors (document w)).
Proof.
  rewrite systemTheme_handler_run.
  destruct (strict_eq _ _ || negb _); simpl; [|split; reflexivity].
  destruct callback; split; reflexivity.
Qed.

Lemma initThemeUI_wired (w : World) : wired w -> wired (world_of (initThemeUI w)).
Proof.
  intros H. rewrite initThemeUI_run.
  destruct (bool_decide _ && _); [|exact H].
  rewrite bind_run, createThemeSelector_run.
  assert (Hlog : wired (set_history (fun h => h ++ [Call_createThemeSelector "themeToggle"]) w))
    by (revert H; apply wired_same; reflexivity).
  assert (Hsetup : forall w', wired w' -> wired (world_of (setupSystemThemeListener None w'))).
  { intros w' H'. rewrite setupSystemThemeListener_run. simpl.
    destruct (matchMedia_defined (window w')); [|exact H'].
    apply wired_add_listener; [left; split; [reflexivity | eexists; reflexivity] | exact H']. }
  destruct (elements_by_id (document w) !! "themeToggle"); apply Hsetup;
    [apply wired_mounted|]; exact Hlog.
Qed.

Lemma run_handler_wired (h : Handler) (ev : Event) (w : World) :
  wired w -> wired (world_of (run_handler h ev w)).
Proof.
  intros H. destruct h as [sel | sel i | sel | sel | callback |]; unfold run_handler.
  - apply (wired_modify_selector toggle_dropdown sel w H).
  - rewrite bind_run.
    destruct (option_click_handler_wiring sel i w) as [Hl Hn].
    destruct (option_click_handler sel i w); exact (wired_same _ _ Hl Hn H).
  - apply (wired_modify_selector close_dropdown sel w H).
  - destruct ev as [t | t key | matches | | t key | attrs]; try exact H.
    destruct (bool_decide (key = "Escape")); [|exact H].
    apply (wired_modify_selector close_dropdown sel w H).
  - rewrite bind_run.
    destruct (systemTheme_handler_wiring callback w) as [Hl Hn].
    destruct (systemTheme_handler callback w); exact (wired_same _ _ Hl Hn H).
  - rewrite bind_run.
    pose proof (initThemeUI_wired w H) as H'.
    destruct (initThemeUI w); exact H'.
Qed.

Lemma dispatch_all_wired (evs : list Event) (w : World) :
  wired w -> wired (dispatch_all evs w).
Proof.
  apply (dispatch_all_keeps (fun w w' => wired w -> wired w')).
  - auto.
  - auto.
  - intros h ev w0. apply run_handler_wired.
  - intros f w0. apply wired_same; reflexivity.
  - intros r w0. apply wired_same; reflexivity.
  - intros attrs w0. apply wired_same; reflexivity.
Qed.

Lemma script_wired (w : World) : wired w -> wired (world_of (script w)).
Proof.
  intros H. rewrite script_run.
  pose proof (initTheme_run w) as Hi. simpl in Hi. rewrite Hi.
  set (w2 := world_of (export_ThemeManager _)).
  assert (H2 : wired w2) by (revert H; apply wired_same; reflexivity).
  destruct (bool_decide _).
  - apply (wired_add_listener (mkListener T_document DOMContentLoaded H_initThemeUI) w2);
      [right; reflexivity | exact H2].
  - apply initThemeUI_wired, H2.
Qed.

Lemma page_load_wired (evs : list Event) (w : World) :
  fresh w -> wired (page_load evs w).
Proof.
  intros H. apply dispatch_all_wired, script_wired, wired_fresh, H.
Qed.



Lemma follows_system_storage (w1 w2 : World) :
  localStorage w1 = localStorage w2 -> follows_system w1 = follows_system w2.
Proof. intros H. unfold follows_system, stored_preference. rewrite H. reflexivity. Qed.

(** A run of change handlers: nothing happens under an explicit preference;
    otherwise the theme the system reports is on the document at the end,
    and window and storage are as before. *)
Lemma invoke_system_handlers (hs : list Handler) (ev : Event) (w : World) :
  Forall is_systemTheme hs ->
  let r := invoke_listeners hs ev w in
  if follows_system w
  then window r.2 = window w /\ localStorage r.2 = localStorage w /\
       (hs <> [] ->
        documentElement (document r.2) !! "data-theme" = Some (system_theme w))
  else r.2 = w.
Proof.
  intros H. revert w. induction H as [|h hs [callback ->] _ IH]; intros w.
  - simpl. destruct (follows_system w); [|reflexivity].
    repeat split. intros Hne. contradiction.
  - cbn [invoke_listeners run_handler]. rewrite bind_run, systemTheme_handler_run.
    fold (follows_system w).
    destruct (follows_system w) eqn:Hf.
    + cbv zeta. unfold mret, M_ret. cbn [fst snd].
      set (w1 := match callback with
                 | Some f =>
                     set_history (fun h => h ++ [Call_callback f (JStr THEMES.SYSTEM)])
                       (set_document (themed (JStr (system_theme w))) w)
                 | None => set_document (themed (JStr (system_theme w))) w
                 end).
      assert (Hwin : window w1 = window w) by (unfold w1; destruct callback; reflexivity).
      assert (Hst : localStorage w1 = localStorage w)
        by (unfold w1; destruct callback; reflexivity).
      assert (Hattr : documentElement (document w1) !! "data-theme" = Some (system_theme w)).
      { unfold w1. destruct callback; simpl; apply lookup_insert_eq. }
      specialize (IH w1). cbn zeta in IH.
      rewrite (follows_system_storage w1 w Hst), Hf in IH.
      destruct IH as (Hwin' & Hst' & Hattr').
      split; [congruence|]. split; [congruence|].
      intros _. destruct hs as [|h' hs'].
      * exact Hattr.
      * rewrite Hattr' by discriminate. f_equal.
        apply system_theme_agree, Hwin.
    + unfold mret, M_ret. cbn [fst snd].
      specialize (IH w). cbn zeta in IH. rewrite Hf in IH. exact IH.
Qed.

(** The change event, with any number of change handlers registered. *)
Lemma change_event_reapplies (matches : bool) (w : World) :
  Forall is_systemTheme (handlers_at T_mediaQuery change w) ->
  handlers_at T_mediaQuery change w <> [] ->
  let w1 := set_window (fun win =>
              mkWindow (matchMedia_defined win) matches
                       (mq_addEventListener_defined win) (ThemeManager_defined win)) w in
  let w' := dispatch (E_change matches) w in
  if follows_system w
  then documentElement (document w') !! "data-theme"
         = Some (if matchMedia_defined (window w) && matches then "dark" else "light")
  else w' = w1.
Proof.
  intros Hall Hne w1 w'.
  assert (Hh : handlers_at T_mediaQuery change w1 = handlers_at T_mediaQuery change w)
    by reflexivity.
  pose proof (invoke_system_handlers _ (E_change matches) w1 Hall) as H.
  cbn zeta in H.
  assert (Hw' : w' = (invoke_listeners (handlers_at T_mediaQuery change w)
                        (E_change matches) w1).2).
  { unfold w', dispatch, event_path, propagate. fold w1. rewrite Hh.
    destruct (invoke_listeners _ _ w1).1; reflexivity. }
  rewrite (follows_system_storage w1 w eq_refl) in H.
  destruct (follows_system w).
  - destruct H as (_ & _ & H). rewrite Hw', (H Hne). reflexivity.
  - rewrite Hw'. exact H.
Qed.

(** X11.  On a page loaded from a fresh document that has registered its
    change listener, whatever events came before, an OS change is followed
    when the preference is "system" or absent: [data-theme] becomes "dark"
    if the query can be made and now matches, "light" otherwise.  Under an
    explicit preference the change is ignored: the attributes of the root,
    the meta tag and the history stay as they are. *)
Lemma change_event_on_loaded_page (w0 : World) (evs : list Event) (matches : bool) :
  fresh w0 ->
  let w := page_load evs w0 in
  handlers_at T_mediaQuery change w <> [] ->
  let w' := dispatch (E_change matches) w in
  if follows_system w
  then documentElement (document w') !! "data-theme"
         = Some (if matchMedia_defined (window w) && matches then "dark" else "light")
  else documentElement (document w') = documentElement (document w) /\
       meta_theme_color (document w') = meta_theme_color (document w) /\
       history w' = history w.
Proof.
  intros Hfresh w Hne w'.
  destruct (page_load_wired evs w0 Hfresh) as (_ & _ & Hm).
  pose proof (change_event_reapplies matches w Hm Hne) as H. cbn zeta in H.
  fold w' in H. destruct (follows_system w); [exact H|].
  rewrite H. repeat split.
Qed.


(** ** The theorems at work on the sample worlds *)

Lemma storage_failures_not_surfaced_witness :
  localStorage_getItem THEME_KEY w_denied
    = Throw (DOMException "SecurityError") w_denied /\
  localStorage_setItem THEME_KEY (JStr "dark") w_denied
    = Throw (DOMException "SecurityError") w_denied /\
  getStoredTheme w_denied = Normal JNull w_denied /\
  storeTheme (JStr "dark") w_denied = Normal tt w_denied.
Proof.
  split; [reflexivity|]. split; [reflexivity|]. split.
  - apply (proj1 (storage_failures_not_surfaced w_denied)
             (DOMException "SecurityError") w_denied).
    reflexivity.
  - apply (proj1 (proj2 (storage_failures_not_surfaced w_denied))
             (JStr "dark") (DOMException "SecurityError") w_denied).
    reflexivity.
Defined.

Lemma store_then_get_roundtrip_witness :
  getItem_fails (localStorage w_fresh) = None /\
  setItem_fails (localStorage w_fresh) THEME_KEY "dark" = None /\
  exists w', storeTheme (JStr "dark") w_fresh = Normal tt w' /\
             getStoredTheme w' = Normal (JStr "dark") w' /\
             (storeTheme (JStr "dark") ;; getStoredTheme) w_fresh = Normal (JStr "dark") w'.
Proof.
  split; [reflexivity|]. split; [reflexivity|].
  apply (store_then_get_roundtrip w_fresh "dark"); reflexivity.
Defined.


Lemma createThemeSelector_without_container_witness :
  elements_by_id (document w_fresh) !! "sidebar" = None /\
  exists w', createThemeSelector "sidebar" w_fresh = Normal None w' /\
             document w' = document w_fresh /\
             listeners w' = listeners w_fresh /\
             localStorage w' = localStorage w_fresh /\
             window w' = window w_fresh.
Proof.
  split; [reflexivity|].
  apply (createThemeSelector_without_container "sidebar" w_fresh). reflexivity.
Defined.

Lemma initTheme_never_returns_empty_witness :
  getStoredTheme w_blue = Normal (JStr "blue") w_blue /\
  getStoredTheme w_empty = Normal (JStr "") w_empty /\
  (exists w', initTheme w_blue = Normal (JStr "blue") w') /\
  (exists w', initTheme w_empty = Normal (JStr "system") w').
Proof.
  split; [reflexivity|]. split; [reflexivity|]. split.
  - destruct (initTheme_never_returns_empty w_blue) as (s & w' & Hrun & _ & Hst & _).
    exists w'. rewrite Hrun. f_equal. f_equal. apply Hst; [reflexivity | discriminate].
  - destruct (initTheme_never_returns_empty w_empty) as (s & w' & Hrun & _ & _ & Hsys & _).
    exists w'. rewrite Hrun. f_equal. f_equal. apply Hsys. right. reflexivity.
Defined.

(** ** The scenarios of the specification *)

(** stored = "dark": the widget shows the "Dark" label and the moon icon,
    and the dark option is the active one. *)
Example scenario_stored_dark :
  let w := page_load [E_DOMContentLoaded]
             (sample_world (working_storage (<[THEME_KEY := "dark"]> ∅)) false) in
  (fun s => (btn_label_textContent s, btn_icon_innerHTML s,
             (fun o => bool_decide ("active" ∈ opt_classList o)) <$> options s))
    <$> selectors (document w)
  = [("Dark", ICONS.moon, [false; true; false])].
Proof. vm_compute. reflexivity. Qed.

(** nothing stored, the system reports dark: the theme applied is "dark"
    and the widget shows "System". *)
Example scenario_nothing_stored_system_dark :
  let w := page_load [E_DOMContentLoaded] (sample_world (working_storage ∅) true) in
  documentElement (document w) !! "data-theme" = Some "dark" /\
  btn_label_textContent <$> selectors (document w) = ["System"].
Proof. split; vm_compute; reflexivity. Qed.

(** the user opens the dropdown and clicks "Light": "light" is stored and
    applied, the dropdown is closed, the button shows "Light". *)
Example scenario_click_light :
  let w := page_load [E_DOMContentLoaded; E_click (T_btn 0); E_click (T_option 0 0)]
             w_fresh in
  persisted w = Some "light" /\
  documentElement (document w) !! "data-theme" = Some "light" /\
  (fun s => (btn_label_textContent s,
             bool_decide ("open" ∈ dropdown_classList s),
             btn_attrs s !! "aria-expanded"))
    <$> selectors (document w)
  = [("Light", false, Some "false")].
Proof. repeat split; vm_compute; reflexivity. Qed.

(** stored = "system", the OS flips from light to dark: [data-theme]
    becomes "dark" without any user interaction. *)
Example scenario_system_flips_to_dark :
  documentElement (document (page_load [E_DOMContentLoaded] w_system)) !! "data-theme"
    = Some "light" /\
  documentElement
    (document (page_load [E_DOMContentLoaded; E_change true] w_system)) !! "data-theme"
    = Some "dark".
Proof. split; vm_compute; reflexivity. Qed.

(** the button toggles the dropdown, by the mouse and by the keyboard;
    Escape and a click elsewhere close it; another key does nothing. *)
Example scenario_open_close :
  let opened w := (fun s => bool_decide ("open" ∈ dropdown_classList s))
                    <$> selectors (document w) in
  opened (page_load [E_DOMContentLoaded] w_fresh) = [false] /\
  opened (page_load [E_DOMContentLoaded; E_click (T_btn 0)] w_fresh) = [true] /\
  opened (page_load [E_DOMContentLoaded; E_click (T_btn 0); E_click (T_btn 0)] w_fresh)
    = [false] /\
  opened (page_load [E_DOMContentLoaded; E_click (T_btn 0);
                     E_keydown (T_btn 0) "Escape"] w_fresh) = [false] /\
  opened (page_load [E_DOMContentLoaded; E_click (T_btn 0);
                     E_keydown (T_btn 0) "Tab"] w_fresh) = [true] /\
  opened (page_load [E_DOMContentLoaded; E_keydown (T_btn 0) "Enter"] w_fresh)
    = [true] /\
  opened (page_load [E_DOMContentLoaded; E_keydown (T_btn 0) " ";
                     E_keyup (T_btn 0) " "] w_fresh) = [true] /\
  opened (page_load [E_DOMContentLoaded; E_click (T_btn 0); E_click T_document] w_fresh)
    = [false].
Proof. repeat split; vm_compute; reflexivity. Qed.


(** ** Resolver and applier: how they compose *)

Lemma effective_theme_fixed (preference : Value) (w : World) :
  effective_theme (effective_theme preference w) w = effective_theme preference w.
Proof.
  assert (Hsys : effective_theme (JStr (system_theme w)) w = JStr (system_theme w)).
  { unfold effective_theme, system_theme. destruct (dark_query_matches w); reflexivity. }
  destruct (strict_eq preference (JStr THEMES.SYSTEM) || negb (truthy preference)) eqn:H.
  - replace (effective_theme preference w) with (JStr (system_theme w))
      by (unfold effective_theme; rewrite H; reflexivity).
    exact Hsys.
  - replace (effective_theme preference w) with preference
      by (unfold effective_theme; rewrite H; reflexivity).
    unfold effective_theme. rewrite H. reflexivity.
Qed.

(** X1.  Resolving twice is resolving once: the result of
    [getEffectiveTheme] is returned unchanged when it is resolved again,
    whatever the preference was; and it is "light" or "dark" as soon as the
    preference is one of the three themes or is falsy. *)
Theorem getEffectiveTheme_idempotent (preference : Value) (w : World) :
  exists eff,
    getEffectiveTheme preference w = Normal eff w /\
    getEffectiveTheme eff w = Normal eff w /\
    (preference = JStr "light" \/ preference = JStr "dark" \/
     preference = JStr "system" \/ truthy preference = false ->
     eff = JStr "light" \/ eff = JStr "dark").
Proof.
  exists (effective_theme preference w).
  split; [apply getEffectiveTheme_run|].
  split; [rewrite getEffectiveTheme_run, effective_theme_fixed; reflexivity|].
  intros H. unfold effective_theme, system_theme.
  destruct H as [-> | [-> | [-> | H]]]; simpl; auto.
  - destruct (dark_query_matches w); auto.
  - rewrite H, orb_true_r. destruct (dark_query_matches w); auto.
Qed.

Lemma themed_themed (a b : Value) (d : Document) :
  themed b (themed a d) = themed b d.
Proof.
  unfold themed, set_meta_theme_color, set_documentElement. simpl.
  rewrite insert_insert_eq.
  destruct (meta_theme_color d) as [m|]; simpl; [|reflexivity].
  rewrite insert_insert_eq. reflexivity.
Qed.

(** X2.  The last [applyTheme] wins: applying [a] and then [b] leaves the
    world that applying [b] alone leaves; and applying a preference is the
    same as applying the theme it resolves to. *)
Theorem applyTheme_last_wins (a b : Value) (w : World) :
  (applyTheme a ;; applyTheme b) w = applyTheme b w /\
  exists eff, getEffectiveTheme b w = Normal eff w /\
              applyTheme eff w = applyTheme b w.
Proof.
  split.
  - rewrite (bind_Normal _ _ _ _ _ (applyTheme_run a w)).
    rewrite !applyTheme_run, effective_theme_set_document.
    destruct w as [st win d ls h]. unfold set_document. simpl.
    rewrite themed_themed. reflexivity.
  - exists (effective_theme b w). split; [apply getEffectiveTheme_run|].
    rewrite !applyTheme_run, effective_theme_fixed. reflexivity.
Qed.

(** ** Preference store: what a write touches *)

(** X3.  [storeTheme] writes the item under the theme key and nothing else:
    every other item of the storage, the window, the document, the
    listeners and the history are what they were. *)
Theorem storeTheme_frame (theme : Value) (w : World) :
  exists w',
    storeTheme theme w = Normal tt w' /\
    (forall k, k <> THEME_KEY ->
               items (localStorage w') !! k = items (localStorage w) !! k) /\
    getItem_fails (localStorage w') = getItem_fails (localStorage w) /\
    agree_but_storage w' w.
Proof.
  exists (stored theme w). split; [apply storeTheme_run|].
  unfold stored. destruct (setItem_fails _ _ _).
  - repeat split.
  - split; [|repeat split].
    intros k Hk. simpl. apply lookup_insert_ne. congruence.
Qed.

(** X4.  What is stored is the string of the value: with a storage that
    works, [storeTheme v] followed by [getStoredTheme] returns the string
    [ToString v]; so [null] is read back as the string "null", not as an
    absent preference. *)
Theorem store_then_get_is_ToString (v : Value) (w : World) :
  getItem_fails (localStorage w) = None ->
  setItem_fails (localStorage w) THEME_KEY (ToString v) = None ->
  exists w', (storeTheme v ;; getStoredTheme) w = Normal (JStr (ToString v)) w'.
Proof.
  intros Hget Hset. exists (stored v w).
  rewrite (bind_Normal _ _ _ _ _ (storeTheme_run v w)), getStoredTheme_run.
  f_equal. unfold stored_preference, stored. rewrite Hset. simpl.
  rewrite Hget, lookup_insert_eq. reflexivity.
Qed.

(** X5.  The last write wins: when the storage accepts [b], storing [a] and
    then [b] leaves the world that storing [b] alone leaves. *)
Theorem storeTheme_last_wins (a b : Value) (w : World) :
  setItem_fails (localStorage w) THEME_KEY (ToString b) = None ->
  (storeTheme a ;; storeTheme b) w = storeTheme b w.
Proof.
  intros Hb.
  rewrite (bind_Normal _ _ _ _ _ (storeTheme_run a w)), !storeTheme_run.
  f_equal. unfold stored at 1 3. rewrite Hb.
  replace (setItem_fails (localStorage (stored a w)) THEME_KEY (ToString b))
    with (@None Exn).
  2:{ unfold stored. destruct (setItem_fails (localStorage w) THEME_KEY (ToString a));
        simpl; rewrite Hb; reflexivity. }
  unfold stored. destruct (setItem_fails (localStorage w) THEME_KEY (ToString a));
    [reflexivity|].
  destruct w as [[m g f] win d ls h]. unfold set_items. simpl.
  rewrite insert_insert_eq. reflexivity.
Qed.

(** X6.  A choice survives a reload: after [setTheme t] with a storage that
    works and a non-empty [t], [initTheme] run in any world that has the
    storage so left returns [t] and puts the theme [t] resolves to there
    on the document. *)
Theorem setTheme_then_initTheme (t : string) (selectorElement : option nat)
    (w w2 : World) :
  t <> "" ->
  getItem_fails (localStorage w) = None ->
  setItem_fails (localStorage w) THEME_KEY t = None ->
  localStorage w2 = localStorage (world_of (setTheme (JStr t) selectorElement w)) ->
  exists eff w3,
    initTheme w2 = Normal (JStr t) w3 /\
    getEffectiveTheme (JStr t) w2 = Normal eff w2 /\
    documentElement (document w3) !! "data-theme" = Some (ToString eff).
Proof.
  intros Ht Hget Hset Hst.
  assert (Hsp : stored_preference w2 = JStr t).
  { unfold stored_preference. rewrite Hst.
    destruct selectorElement as [sel|];
      [rewrite setTheme_run | rewrite setTheme_no_selector_run];
      simpl; unfold stored; simpl; rewrite Hset; simpl;
      rewrite Hget, lookup_insert_eq; reflexivity. }
  pose proof (initTheme_run w2) as Hi. simpl in Hi. rewrite Hsp in Hi.
  assert (Hor : js_or (JStr t) (JStr THEMES.SYSTEM) = JStr t).
  { unfold js_or. simpl. rewrite bool_decide_eq_false_2 by exact Ht. reflexivity. }
  rewrite Hor in Hi.
  eexists _, _. split; [exact Hi|]. split; [apply getEffectiveTheme_run|].
  simpl. rewrite lookup_insert_eq. reflexivity.
Qed.


(** ** Widget construction *)

Lemma option_classes_active (active : bool) :
  "active" ∈ option_classes active <-> active = true.
Proof.
  unfold option_classes. destruct active.
  - split; [reflexivity|]. intros _.
    apply elem_of_union. right. apply elem_of_singleton. reflexivity.
  - split; [|intros H; discriminate H].
    intros H%elem_of_singleton. discriminate H.
Qed.

Lemma selector_template_closed (currentTheme : Value) :
  closed (selector_template currentTheme).
Proof.
  split.
  - simpl. intros H%elem_of_singleton. discriminate H.
  - reflexivity.
Qed.

Lemma selector_template_active (currentTheme : Value) (j : nat) (o : OptionEl) :
  options (selector_template currentTheme) !! j = Some o ->
  ("active" ∈ opt_classList o <-> JStr (opt_dataset_theme o) = currentTheme).
Proof.
  intros H. destruct j as [|[|[|j]]]; simpl in H; [| | |discriminate H];
    injection H as <-; simpl; rewrite option_classes_active;
    unfold strict_eq; rewrite bool_decide_eq_true; split; congruence.
Qed.

(** X7.  With a container, [createThemeSelector] returns a new selector,
    whatever the storage does: the selector is added after the existing ones
    and appended as the last child of the container; it shows the icon and
    the label of the current preference (the stored one, or "system" when
    that is falsy), its dropdown is closed, and an option is active exactly
    when its theme is the current preference; the six listeners of the
    selector are registered after the existing ones; storage, window, the
    attributes of the root and the meta tag are untouched. *)
Theorem createThemeSelector_mounts (containerId : string) (w : World) (ch : list nat) :
  elements_by_id (document w) !! containerId = Some ch ->
  exists st s w',
    let n := length (selectors (document w)) in
    let currentTheme := js_or st (JStr "system") in
    getStoredTheme w = Normal st w /\
    createThemeSelector containerId w = Normal (Some n) w' /\
    selectors (document w') = selectors (document w) ++ [s] /\
    elements_by_id (document w') !! containerId = Some (ch ++ [n]) /\
    (forall id, id <> containerId ->
       elements_by_id (document w') !! id = elements_by_id (document w) !! id) /\
    listeners w' = listeners w ++ selector_listeners n /\
    localStorage w' = localStorage w /\ window w' = window w /\
    documentElement (document w') = documentElement (document w) /\
    meta_theme_color (document w') = meta_theme_color (document w) /\
    btn_icon_innerHTML s = getIconForTheme currentTheme /\
    btn_label_textContent s = getLabelForTheme currentTheme /\
    closed s /\ selector_wf s /\
    (forall j o, options s !! j = Some o ->
       ("active" ∈ opt_classList o <-> JStr (opt_dataset_theme o) = currentTheme)).
Proof.
  intros Hc.
  exists (stored_preference w),
         (selector_template (js_or (stored_preference w) (JStr THEMES.SYSTEM))).
  eexists. cbn zeta.
  split; [apply getStoredTheme_run|].
  split; [rewrite createThemeSelector_run, Hc; reflexivity|].
  split; [reflexivity|].
  split; [simpl; rewrite lookup_alter_eq, Hc; reflexivity|].
  split; [intros id Hid; simpl; apply lookup_alter_ne; congruence|].
  split; [reflexivity|].
  do 6 (split; [reflexivity|]).
  split; [apply selector_template_closed|].
  split; [apply selector_template_wf|].
  apply selector_template_active.
Qed.

(** X8.  A stored value that is not one of the three themes still gives a
    widget.  When the value is falsy (nothing stored, storage unreadable,
    the empty string) the widget is the one of "system": System label and
    icon, the system option active.  When it is a non-empty string outside
    the themes the button shows System as well, but no option is active. *)
Theorem createThemeSelector_unknown_preference (containerId : string) (w : World)
    (ch : list nat) (st : Value) :
  elements_by_id (document w) !! containerId = Some ch ->
  getStoredTheme w = Normal st w ->
  st <> JStr "light" -> st <> JStr "dark" ->
  exists n s w',
    createThemeSelector containerId w = Normal (Some n) w' /\
    selectors (document w') !! n = Some s /\
    btn_icon_innerHTML s = ICONS.system /\
    btn_label_textContent s = "System" /\
    (forall j o, options s !! j = Some o ->
       ("active" ∈ opt_classList o <->
        opt_dataset_theme o = "system" /\ (st = JStr "system" \/ truthy st = false))).
Proof.
  intros Hc Hst%getStoredTheme_inv Hl Hd.
  set (cur := js_or st (JStr THEMES.SYSTEM)).
  assert (Hcur : cur = JStr THEMES.SYSTEM <-> st = JStr "system" \/ truthy st = false).
  { unfold cur, js_or. destruct (truthy st) eqn:Ht.
    - split; [intros ->; left; reflexivity | intros [-> | H]; [reflexivity | discriminate H]].
    - split; [right; reflexivity | reflexivity]. }
  assert (Hnl : cur <> JStr THEMES.LIGHT).
  { unfold cur, js_or. destruct (truthy st); [exact Hl | discriminate]. }
  assert (Hnd : cur <> JStr THEMES.DARK).
  { unfold cur, js_or. destruct (truthy st); [exact Hd | discriminate]. }
  exists (length (selectors (document w))), (selector_template cur). eexists.
  split; [rewrite createThemeSelector_run, Hc, <- Hst; reflexivity|].
  split; [simpl; rewrite lookup_app_r, Nat.sub_diag by reflexivity; reflexivity|].
  split.
  { simpl. unfold getIconForTheme, strict_eq.
    rewrite !bool_decide_eq_false_2 by assumption. reflexivity. }
  split.
  { simpl. unfold getLabelForTheme, strict_eq.
    rewrite !bool_decide_eq_false_2 by assumption. reflexivity. }
  intros j o Ho. rewrite (selector_template_active cur j o Ho), <- Hcur.
  destruct j as [|[|[|j]]]; simpl in Ho; [| | |discriminate Ho];
    injection Ho as <-; simpl; split.
  - intros H. symmetry in H. contradiction.
  - intros [H _]. discriminate H.
  - intros H. symmetry in H. contradiction.
  - intros [H _]. discriminate H.
  - intros H. split; [reflexivity | symmetry; exact H].
  - intros [_ H]. symmetry. exact H.
Qed.

(** ** [setTheme] through the exported API *)

(** X9.  [setTheme] does not check its theme.  Called with a non-empty
    string that is none of the three themes, it stores the string (when the
    storage takes it), writes it to [data-theme] as it is, shows System on
    the button of the selector and leaves no option active. *)
Theorem setTheme_unknown_theme (t : string) (sel : nat) (s : Selector) (w : World) :
  selectors (document w) !! sel = Some s ->
  selector_wf s ->
  t <> "" -> ~ is_theme t ->
  exists w' s',
    setTheme (JStr t) (Some sel) w = Normal tt w' /\
    (setItem_fails (localStorage w) THEME_KEY t = None -> persisted w' = Some t) /\
    documentElement (document w') !! "data-theme" = Some t /\
    selectors (document w') !! sel = Some s' /\
    btn_icon_innerHTML s' = ICONS.system /\
    btn_label_textContent s' = "System" /\
    (forall o, o ∈ options s' -> "active" ∉ opt_classList o).
Proof.
  intros Hs Hwf Ht Hnt.
  assert (Hl : JStr t <> JStr THEMES.LIGHT) by (intros [= ->]; apply Hnt; left; reflexivity).
  assert (Hd : JStr t <> JStr THEMES.DARK)
    by (intros [= ->]; apply Hnt; right; left; reflexivity).
  assert (Hy : JStr t <> JStr THEMES.SYSTEM)
    by (intros [= ->]; apply Hnt; right; right; reflexivity).
  exists (world_of (setTheme (JStr t) (Some sel) w)), (selected (JStr t) s).
  rewrite setTheme_run. cbn [world_of].
  split; [reflexivity|].
  split.
  { intros Hset. unfold persisted, stored. simpl. rewrite Hset. simpl.
    apply lookup_insert_eq. }
  split.
  { simpl. rewrite lookup_insert_eq. f_equal.
    unfold effective_theme, strict_eq. simpl.
    rewrite !bool_decide_eq_false_2 by assumption. reflexivity. }
  split; [simpl; rewrite list_lookup_alter_eq, stored_document, Hs; reflexivity|].
  split.
  { simpl. unfold getIconForTheme, strict_eq.
    rewrite !bool_decide_eq_false_2 by assumption. reflexivity. }
  split.
  { simpl. unfold getLabelForTheme, strict_eq.
    rewrite !bool_decide_eq_false_2 by assumption. reflexivity. }
  intros o Ho. simpl in Ho. apply list_elem_of_fmap in Ho as (o0 & -> & Ho0).
  simpl. rewrite active_after_toggle. unfold strict_eq.
  intros H%bool_decide_eq_true. injection H as H.
  apply Hnt. rewrite <- H.
  apply list_elem_of_lookup in Ho0 as [i Hi].
  exact (selector_wf_lookup s i o0 Hwf Hi).
Qed.


(** ** Invariants of the selectors of a page *)

Section SelectorInvariant.
Variable P : Selector -> Prop.
Hypothesis P_template : forall currentTheme, P (selector_template currentTheme).
Hypothesis P_toggle : forall s, P s -> P (toggle_dropdown s).
Hypothesis P_close : forall s, P s -> P (close_dropdown s).
Hypothesis P_selected : forall theme s, P s -> P (selected theme s).

Lemma all_selectors_same (w w' : World) :
  selectors (document w') = selectors (document w) ->
  all_selectors P w -> all_selectors P w'.
Proof. unfold all_selectors. intros ->. auto. Qed.

Lemma all_selectors_alter (f : Selector -> Selector) (sel : nat) (w : World) :
  (forall s, P s -> P (f s)) ->
  all_selectors P w -> all_selectors P (set_document (set_selectors (alter f sel)) w).
Proof. intros Hf H. unfold all_selectors. simpl. apply Forall_alter; auto. Qed.

Lemma initThemeUI_all_selectors (w : World) :
  all_selectors P w -> all_selectors P (world_of (initThemeUI w)).
Proof using P_template.
  intros H. rewrite initThemeUI_run.
  destruct (bool_decide _ && _); [|exact H].
  rewrite bind_run, createThemeSelector_run.
  destruct (elements_by_id (document w) !! "themeToggle").
  - rewrite setupSystemThemeListener_run. cbn [world_of].
    match goal with |- all_selectors P (if ?b then _ else _) => destruct b end;
      unfold all_selectors; simpl; (apply Forall_app; split; [exact H|]);
      apply Forall_singleton, P_template.
  - rewrite setupSystemThemeListener_run. cbn [world_of].
    match goal with |- all_selectors P (if ?b then _ else _) => destruct b end; exact H.
Qed.

Lemma run_handler_all_selectors (h : Handler) (ev : Event) (w : World) :
  all_selectors P w -> all_selectors P (world_of (run_handler h ev w)).
Proof using P_template P_toggle P_close P_selected.
  intros H. destruct h as [sel | sel i | sel | sel | callback |]; unfold run_handler.
  - apply (all_selectors_alter toggle_dropdown sel w P_toggle H).
  - rewrite bind_run, option_click_handler_run.
    destruct (selectors (document w) !! sel ≫= fun s => options s !! i); [|exact H].
    cbn [world_of mret M_ret].
    apply all_selectors_alter; [exact P_close|].
    apply all_selectors_alter; [apply P_selected|].
    revert H. apply all_selectors_same. simpl. rewrite stored_document. reflexivity.
  - apply (all_selectors_alter close_dropdown sel w P_close H).
  - destruct ev as [t | t key | matches | | t key | attrs]; try exact H.
    destruct (bool_decide (key = "Escape")); [|exact H].
    apply (all_selectors_alter close_dropdown sel w P_close H).
  - rewrite bind_run, systemTheme_handler_run.
    destruct (strict_eq _ _ || negb _); [|exact H].
    destruct callback; exact H.
  - rewrite bind_run.
    pose proof (initThemeUI_all_selectors w H) as H'.
    destruct (initThemeUI w); exact H'.
Qed.

Lemma page_load_all_selectors (evs : list Event) (w : World) :
  all_selectors P w -> all_selectors P (page_load evs w).
Proof using P_template P_toggle P_close P_selected.
  intros H. unfold page_load.
  apply (dispatch_all_keeps (fun w w' => all_selectors P w -> all_selectors P w')).
  - auto.
  - auto.
  - intros h ev w0. apply run_handler_all_selectors.
  - intros f w0 H0. exact H0.
  - intros r w0 H0. exact H0.
  - intros attrs w0 H0. exact H0.
  - rewrite script_run.
    pose proof (initTheme_run w) as Hi. simpl in Hi. rewrite Hi.
    cbn [world_of export_ThemeManager modify].
    match goal with |- all_selectors P (world_of (if ?b then _ else _)) => destruct b end.
    + exact H.
    + apply initThemeUI_all_selectors. exact H.
Qed.
End SelectorInvariant.

Lemma classList_toggle_open (cl : gset string) :
  bool_decide ("open" ∈ classList_toggle "open" cl)
  = negb (classList_contains "open" cl).
Proof.
  unfold classList_toggle, classList_contains.
  destruct (bool_decide ("open" ∈ cl)) eqn:H; simpl.
  - apply bool_decide_eq_false_2. apply (classList_remove_spec "open" cl).
  - apply bool_decide_eq_true_2. apply elem_of_union. right.
    apply elem_of_singleton. reflexivity.
Qed.

Lemma aria_synced_toggle (s : Selector) : aria_synced (toggle_dropdown s).
Proof.
  unfold aria_synced, toggle_dropdown. simpl.
  rewrite lookup_insert_eq, classList_toggle_open.
  destruct (classList_contains "open" (dropdown_classList s)); reflexivity.
Qed.

Lemma aria_synced_close (s : Selector) : aria_synced (close_dropdown s).
Proof.
  unfold aria_synced, close_dropdown. simpl. rewrite lookup_insert_eq.
  rewrite bool_decide_eq_false_2 by apply classList_remove_spec. reflexivity.
Qed.

Lemma page_load_aria_synced (w0 : World) (evs : list Event) :
  selectors (document w0) = [] ->
  all_selectors aria_synced (page_load evs w0).
Proof.
  intros H0. apply page_load_all_selectors.
  - intros cur. reflexivity.
  - intros s0 _. apply aria_synced_toggle.
  - intros s0 _. apply aria_synced_close.
  - intros theme s0 H. exact H.
  - unfold all_selectors. rewrite H0. apply Forall_nil_2.
Qed.

(** X12.  On a page load that starts without selectors, whatever the
    events, [aria-expanded] on the button of every selector tells the truth:
    it is "true" when the dropdown has the class "open" and "false" when it
    has not. *)
Theorem aria_expanded_follows_open (w0 : World) (evs : list Event) (sel : nat)
    (s : Selector) :
  selectors (document w0) = [] ->
  selectors (document (page_load evs w0)) !! sel = Some s ->
  btn_attrs s !! "aria-expanded" =
  Some (if bool_decide ("open" ∈ dropdown_classList s) then "true" else "false").
Proof.
  intros H0 Hs.
  exact (Forall_lookup_1 _ _ _ _ (page_load_aria_synced w0 evs H0) Hs).
Qed.

Lemma display_consistent_template (currentTheme : Value) :
  display_consistent (selector_template currentTheme).
Proof.
  exists currentTheme. split; [reflexivity|]. split; [reflexivity|].
  intros o [j Hj]%list_elem_of_lookup.
  destruct j as [|[|[|j]]]; simpl in Hj; [| | |discriminate Hj];
    injection Hj as <-; simpl; unfold option_classes, strict_eq;
    case_bool_decide as Hc; split; intros H; try congruence;
    try (apply elem_of_union; right; apply elem_of_singleton; reflexivity);
    apply elem_of_singleton in H; discriminate H.
Qed.

Lemma display_consistent_selected (theme : Value) (s : Selector) :
  display_consistent (selected theme s).
Proof.
  exists theme. split; [reflexivity|]. split; [reflexivity|].
  intros o Ho. simpl in Ho. apply list_elem_of_fmap in Ho as (o0 & -> & _).
  simpl. rewrite active_after_toggle. unfold strict_eq.
  apply bool_decide_eq_true.
Qed.

(** X13.  On a page load that starts without selectors, whatever the
    events, the highlighting of every selector agrees with its button: at
    most one option is active, and when one is, the button shows the icon
    and the label of the theme of that option. *)
Theorem active_option_is_the_one_shown (w0 : World) (evs : list Event) (sel : nat)
    (s : Selector) (i : nat) (o : OptionEl) :
  selectors (document w0) = [] ->
  selectors (document (page_load evs w0)) !! sel = Some s ->
  options s !! i = Some o ->
  "active" ∈ opt_classList o ->
  btn_icon_innerHTML s = getIconForTheme (JStr (opt_dataset_theme o)) /\
  btn_label_textContent s = getLabelForTheme (JStr (opt_dataset_theme o)) /\
  (forall j o', options s !! j = Some o' -> "active" ∈ opt_classList o' -> j = i).
Proof.
  intros H0 Hs Hi Hact.
  assert (H : all_selectors (fun s => display_consistent s /\ selector_wf s)
                (page_load evs w0)).
  { apply page_load_all_selectors.
    - intros cur. split; [apply display_consistent_template | apply selector_template_wf].
    - intros s0 H. exact H.
    - intros s0 H. exact H.
    - intros theme s0 [_ H]. split; [apply display_consistent_selected|].
      apply selected_wf, H.
    - unfold all_selectors. rewrite H0. apply Forall_nil_2. }
  destruct (Forall_lookup_1 _ _ _ _ H Hs) as [(theme & Hicon & Hlabel & Ha) Hwf].
  assert (Hth : JStr (opt_dataset_theme o) = theme).
  { apply Ha; [|exact Hact]. apply list_elem_of_lookup. eauto. }
  rewrite Hth. split; [exact Hicon|]. split; [exact Hlabel|].
  intros j o' Hj Hact'.
  assert (Hth' : JStr (opt_dataset_theme o') = theme).
  { apply Ha; [|exact Hact']. apply list_elem_of_lookup. eauto. }
  destruct (selector_wf_options s Hwf) as (o0 & o1 & o2 & Hopts & T0 & T1 & T2).
  rewrite Hopts in Hi, Hj. rewrite <- Hth' in Hth. injection Hth as Hth.
  destruct i as [|[|[|i]]]; simpl in Hi; [| | |discriminate Hi];
    injection Hi as <-;
    destruct j as [|[|[|j]]]; simpl in Hj; try discriminate Hj;
    injection Hj as <-; try reflexivity;
    rewrite ?T0, ?T1, ?T2 in Hth; discriminate Hth.
Qed.


(** ** What a handler does to the theme of the document *)

Lemma theme_color_ToString (eff : Value) :
  theme_color eff = if bool_decide (ToString eff = "dark") then "#0f3460" else "#2c3e50".
Proof.
  unfold theme_color, strict_eq.
  destruct eff as [| |[|]|s]; try reflexivity.
  simpl. unfold THEMES.DARK. repeat case_bool_decide; congruence.
Qed.

Lemma themed_synced (eff : Value) (d : Document) : theme_synced (themed eff d).
Proof.
  exists (ToString eff). split; [simpl; apply lookup_insert_eq|].
  intros m. simpl. destruct (meta_theme_color d) as [m0|]; simpl; [|discriminate].
  intros [= <-]. rewrite lookup_insert_eq, theme_color_ToString. reflexivity.
Qed.

Lemma theme_synced_same (d d' : Document) :
  same_theme d d' -> theme_synced d -> theme_synced d'.
Proof. intros [H1 H2] (t & Ht & Hm). exists t. rewrite H1, H2. auto. Qed.

Lemma effective_theme_of_theme (t : string) (w : World) :
  is_theme t ->
  effective_theme (JStr t) w = JStr "light" \/ effective_theme (JStr t) w = JStr "dark".
Proof.
  intros [-> | [-> | ->]]; unfold effective_theme, system_theme; simpl; auto.
  destruct (dark_query_matches w); auto.
Qed.

(** A handler leaves the theme of the document alone or applies one; the
    theme it applies is "light" or "dark" when the selectors are well formed. *)
Lemma run_handler_theme (h : Handler) (ev : Event) (w : World) :
  let d' := document (world_of (run_handler h ev w)) in
  same_theme (document w) d' \/
  exists eff,
    same_theme (themed eff (document w)) d' /\
    (Forall selector_wf (selectors (document w)) ->
     eff = JStr "light" \/ eff = JStr "dark").
Proof.
  destruct h as [sel | sel i | sel | sel | callback |]; unfold run_handler; cbn zeta.
  - left. split; reflexivity.
  - rewrite bind_run, option_click_handler_run.
    destruct (selectors (document w) !! sel) as [s|] eqn:Hs; simpl;
      [|left; split; reflexivity].
    destruct (options s !! i) as [opt|] eqn:Ho; simpl; [|left; split; reflexivity].
    right. exists (effective_theme (JStr (opt_dataset_theme opt)) w).
    split; [rewrite stored_document; split; reflexivity|].
    intros Hwf. apply effective_theme_of_theme.
    exact (selector_wf_lookup s i opt (Forall_lookup_1 _ _ _ _ Hwf Hs) Ho).
  - left. split; reflexivity.
  - destruct ev as [t | t key | matches | | t key | attrs]; try (left; split; reflexivity).
    destruct (bool_decide (key = "Escape")); left; split; reflexivity.
  - rewrite bind_run, systemTheme_handler_run.
    destruct (strict_eq _ _ || negb _); [|left; split; reflexivity].
    right. exists (JStr (system_theme w)).
    split; [destruct callback; split; reflexivity|].
    intros _. unfold system_theme. destruct (dark_query_matches w); auto.
  - left. rewrite bind_run, initThemeUI_run.
    destruct (bool_decide _ && _); [|split; reflexivity].
    rewrite bind_run, createThemeSelector_run.
    destruct (elements_by_id (document w) !! "themeToggle");
      rewrite setupSystemThemeListener_run; cbn [world_of mret M_ret];
      match goal with |- context [if ?b then _ else _] => destruct b end;
      split; reflexivity.
Qed.

Lemma script_theme (w : World) :
  same_theme
    (themed (effective_theme (js_or (stored_preference w) (JStr THEMES.SYSTEM)) w)
            (document w))
    (document (world_of (script w))).
Proof.
  rewrite script_run.
  pose proof (initTheme_run w) as Hi. simpl in Hi. rewrite Hi.
  cbn [world_of export_ThemeManager modify].
  match goal with |- context [bool_decide ?P] => destruct (bool_decide P) end.
  - split; reflexivity.
  - rewrite initThemeUI_run.
    match goal with |- context [if ?b then _ else _] => destruct b end;
      [|split; reflexivity].
    rewrite bind_run, createThemeSelector_run.
    match goal with |- context [elements_by_id ?d !! ?k] =>
      destruct (elements_by_id d !! k) end;
      rewrite setupSystemThemeListener_run; cbn [world_of mret M_ret];
      match goal with |- context [if ?b then _ else _] => destruct b end;
      split; reflexivity.
Qed.

(** ** The theme stays applied *)

Lemma run_handler_theme_applied (h : Handler) (ev : Event) (w : World) :
  theme_applied w -> theme_applied (world_of (run_handler h ev w)).
Proof.
  unfold theme_applied. intros H.
  destruct (run_handler_theme h ev w) as [[-> _] | (eff & [-> _] & _)]; [exact H|].
  simpl. rewrite lookup_insert_eq. eauto.
Qed.

Lemma page_load_theme_applied (evs : list Event) (w : World) :
  theme_applied (page_load evs w).
Proof.
  unfold page_load.
  apply (dispatch_all_keeps (fun w w' => theme_applied w -> theme_applied w')).
  - auto.
  - auto.
  - intros h ev w0. apply run_handler_theme_applied.
  - intros f w0 H. exact H.
  - intros r w0 H. exact H.
  - intros attrs w0 H. exact H.
  - unfold theme_applied. destruct (script_theme w) as [-> _].
    simpl. rewrite lookup_insert_eq. eauto.
Qed.

(** X14.  Once the script has run, whatever the world it started in and
    whatever events follow (a meta tag parsed later among them), the
    document has a [data-theme].  When the theme-color meta tag is in the
    document at the time the script runs, it carries the colour of that
    theme from then on: "#0f3460" for "dark" and "#2c3e50" for anything
    else.  (A tag parsed after the script keeps the content it was written
    with until a theme is next applied: see
    [scenario_meta_parsed_after_script].) *)
Theorem theme_color_follows_data_theme (w0 : World) (evs : list Event) :
  (exists t, documentElement (document (page_load evs w0)) !! "data-theme" = Some t) /\
  (is_Some (meta_theme_color (document w0)) ->
   exists t m,
     documentElement (document (page_load evs w0)) !! "data-theme" = Some t /\
     meta_theme_color (document (page_load evs w0)) = Some m /\
     m !! "content" = Some (if bool_decide (t = "dark") then "#0f3460" else "#2c3e50")).
Proof.
  split.
  - apply page_load_theme_applied.
  - intros Hmeta.
    set (Inv := fun w : World =>
           theme_synced (document w) /\ is_Some (meta_theme_color (document w))).
    assert (Hthemed : forall eff d d',
              is_Some (meta_theme_color d) -> same_theme (themed eff d) d' ->
              theme_synced d' /\ is_Some (meta_theme_color d')).
    { intros eff d d' [m Hm] Hs. split.
      - exact (theme_synced_same _ _ Hs (themed_synced eff d)).
      - destruct Hs as [_ ->]. simpl. rewrite Hm. simpl. eauto. }
    assert (H : Inv (page_load evs w0)).
    { unfold page_load.
      apply (dispatch_all_keeps (fun w w' => Inv w -> Inv w')).
      - auto.
      - auto.
      - intros h ev w [Hsync Hm].
        destruct (run_handler_theme h ev w) as [Hs | (eff & Hs & _)].
        + split; [exact (theme_synced_same _ _ Hs Hsync)|].
          destruct Hs as [_ ->]. exact Hm.
        + exact (Hthemed eff _ _ Hm Hs).
      - intros f w H. exact H.
      - intros r w H. exact H.
      - intros attrs w [Hsync [m Hm]]. split.
        + apply (theme_synced_same (document w)); [|exact Hsync].
          split; [reflexivity|]. simpl. rewrite Hm. reflexivity.
        + simpl. rewrite Hm. eauto.
      - exact (Hthemed _ _ _ Hmeta (script_theme w0)). }
    destruct H as [(t & Ht & Hc) [m Hm]].
    exists t, m. split; [exact Ht|]. split; [exact Hm | exact (Hc m Hm)].
Qed.

(** X15.  When the page starts with well-formed selectors and a stored
    preference that is absent, empty or one of the three themes, the theme
    on the document is "light" or "dark" at any time after the script has
    run, whatever the events. *)
Theorem data_theme_is_light_or_dark (w0 : World) (evs : list Event) (st : Value) :
  Forall selector_wf (selectors (document w0)) ->
  getStoredTheme w0 = Normal st w0 ->
  st = JNull \/ st = JStr "" \/ st = JStr "light" \/ st = JStr "dark"
  \/ st = JStr "system" ->
  documentElement (document (page_load evs w0)) !! "data-theme" = Some "light" \/
  documentElement (document (page_load evs w0)) !! "data-theme" = Some "dark".
Proof.
  intros Hwf Hst%getStoredTheme_inv Hcase.
  set (Inv := fun w =>
         Forall selector_wf (selectors (document w)) /\
         (documentElement (document w) !! "data-theme" = Some "light" \/
          documentElement (document w) !! "data-theme" = Some "dark")).
  assert (Hthemed : forall eff d d',
            eff = JStr "light" \/ eff = JStr "dark" -> same_theme (themed eff d) d' ->
            documentElement d' !! "data-theme" = Some "light" \/
            documentElement d' !! "data-theme" = Some "dark").
  { intros eff d d' Heff [-> _]. simpl. rewrite lookup_insert_eq.
    destruct Heff as [-> | ->]; auto. }
  assert (H : Inv (page_load evs w0)); [|exact (proj2 H)].
  unfold page_load.
  apply (dispatch_all_keeps (fun w w' => Inv w -> Inv w')).
  - auto.
  - auto.
  - intros h ev w [Hw Ht]. split.
    + exact (proj1 (proj2 (run_handler_evolves h ev w) Hw)).
    + destruct (run_handler_theme h ev w) as [[Hs _] | (eff & Hs & Heff)].
      * rewrite Hs. exact Ht.
      * exact (Hthemed _ _ _ (Heff Hw) Hs).
  - intros f w H. exact H.
  - intros r w H. exact H.
  - intros attrs w H. exact H.
  - split.
    + exact (proj1 (proj2 (proj1 (script_evolves w0)) Hwf)).
    + eapply Hthemed; [|apply script_theme].
      rewrite <- Hst.
      destruct Hcase as [-> | [-> | [-> | [-> | ->]]]];
        unfold effective_theme, system_theme; simpl; auto;
        destruct (dark_query_matches w0); auto.
Qed.


(** ** Nothing is ever removed *)

Lemma grown_refl (w : World) : grown w w.
Proof. split; [exists []; rewrite app_nil_r; reflexivity | lia]. Qed.

Lemma grown_trans (w1 w2 w3 : World) : grown w1 w2 -> grown w2 w3 -> grown w1 w3.
Proof.
  intros [[a Ha] Hn] [[b Hb] Hm]. split; [|lia].
  exists (a ++ b). rewrite Hb, Ha, app_assoc. reflexivity.
Qed.

Lemma grown_same (w w' : World) :
  listeners w' = listeners w ->
  length (selectors (document w')) = length (selectors (document w)) ->
  grown w w'.
Proof.
  intros Hl Hn. split; [exists []; rewrite app_nil_r; exact Hl | lia].
Qed.

Lemma initThemeUI_grown (w : World) : grown w (world_of (initThemeUI w)).
Proof.
  rewrite initThemeUI_run.
  destruct (bool_decide _ && _); [|apply grown_refl].
  rewrite bind_run, createThemeSelector_run.
  destruct (elements_by_id (document w) !! "themeToggle");
    rewrite setupSystemThemeListener_run; cbn [world_of];
    match goal with |- context [if ?b then _ else _] => destruct b end.
  - split; [|simpl; rewrite length_app; lia].
    eexists. simpl. rewrite <- app_assoc. reflexivity.
  - split; [|simpl; rewrite length_app; lia].
    eexists. simpl. reflexivity.
  - split; [|simpl; lia]. eexists. simpl. reflexivity.
  - apply grown_same; reflexivity.
Qed.

Lemma run_handler_grown (h : Handler) (ev : Event) (w : World) :
  grown w (world_of (run_handler h ev w)).
Proof.
  destruct h as [sel | sel i | sel | sel | callback |]; unfold run_handler.
  - apply grown_same; [reflexivity | simpl; apply length_alter].
  - rewrite bind_run.
    destruct (option_click_handler_wiring sel i w) as [Hl Hn].
    destruct (option_click_handler sel i w); exact (grown_same _ _ Hl Hn).
  - apply grown_same; [reflexivity | simpl; apply length_alter].
  - destruct ev as [t | t key | matches | | t key | attrs]; try apply grown_refl.
    destruct (bool_decide (key = "Escape")); [|apply grown_refl].
    apply grown_same; [reflexivity | simpl; apply length_alter].
  - rewrite bind_run.
    destruct (systemTheme_handler_wiring callback w) as [Hl Hn].
    destruct (systemTheme_handler callback w); exact (grown_same _ _ Hl Hn).
  - rewrite bind_run.
    pose proof (initThemeUI_grown w) as H.
    destruct (initThemeUI w); exact H.
Qed.

(** X16.  The script has no way to unsubscribe or to remove a widget: over
    a page load and over any sequence of events, the listeners registered
    before are still registered, in front and in their order, and the
    number of selectors has not gone down. *)
Theorem listeners_and_selectors_only_grow (w : World) (evs : list Event) :
  ((exists added, listeners (dispatch_all evs w) = listeners w ++ added) /\
   length (selectors (document w))
     <= length (selectors (document (dispatch_all evs w)))) /\
  ((exists added, listeners (page_load evs w) = listeners w ++ added) /\
   length (selectors (document w))
     <= length (selectors (document (page_load evs w)))).
Proof.
  assert (Hd : forall w', grown w' (dispatch_all evs w')).
  { intros w'. apply dispatch_all_keeps.
    - apply grown_refl.
    - apply grown_trans.
    - apply run_handler_grown.
    - intros f w0. apply grown_same; reflexivity.
    - intros r w0. apply grown_same; reflexivity.
    - intros attrs w0. apply grown_same; reflexivity. }
  split; [apply Hd|].
  apply (grown_trans w (world_of (script w))); [|apply Hd].
  rewrite script_run.
  pose proof (initTheme_run w) as Hi. simpl in Hi. rewrite Hi.
  cbn [world_of export_ThemeManager modify].
  match goal with |- context [bool_decide ?P] => destruct (bool_decide P) end.
  - split; [eexists; reflexivity | simpl; lia].
  - match goal with |- grown _ (world_of (initThemeUI ?x)) =>
      apply (grown_trans w x); [apply grown_same; reflexivity | apply initThemeUI_grown]
    end.
Qed.

(** ** A page without the mount point *)

(** X17.  On a page without an element of id "themeToggle" and without
    selectors, no widget is ever built: whatever the events, there is still
    no selector, [createThemeSelector] has not been called, and the only
    listener the script has added is the one for [DOMContentLoaded], when
    the document was still loading. *)
Theorem no_widget_without_mount_point (w0 : World) (evs : list Event) :
  elements_by_id (document w0) !! "themeToggle" = None ->
  selectors (document w0) = [] ->
  let w := page_load evs w0 in
  selectors (document w) = [] /\
  (exists calls, history w = history w0 ++ calls /\
                 forall id, Call_createThemeSelector id ∉ calls) /\
  listeners (world_of (script w0)) =
    listeners w0 ++
    (if bool_decide (readyState (document w0) = loading)
     then [mkListener T_document DOMContentLoaded H_initThemeUI] else []).
Proof.
  intros He Hs w.
  set (Inv := fun w1 : World =>
         elements_by_id (document w1) !! "themeToggle" = None /\
         selectors (document w1) = [] /\
         exists calls, history w1 = history w0 ++ calls /\
                       forall id, Call_createThemeSelector id ∉ calls).
  assert (Hstep : forall h ev w1, Inv w1 -> Inv (world_of (run_handler h ev w1))).
  { intros h ev w1 (H1 & H2 & calls & H3 & H4).
    assert (Hui : initThemeUI w1 = Normal tt w1) by (rewrite initThemeUI_run, H1; reflexivity).
    destruct h as [sel | sel i | sel | sel | callback |]; unfold run_handler.
    - split; [exact H1|]. split; [simpl; rewrite H2; reflexivity|]. eauto.
    - rewrite bind_run, option_click_handler_run, H2. simpl.
      split; [exact H1|]. split; [exact H2|]. eauto.
    - split; [exact H1|]. split; [simpl; rewrite H2; reflexivity|]. eauto.
    - destruct ev as [t | t key | matches | | t key | attrs];
        try (split; [exact H1|]; split; [exact H2|]; eauto).
      destruct (bool_decide (key = "Escape")).
      + split; [exact H1|]. split; [simpl; rewrite H2; reflexivity|]. eauto.
      + split; [exact H1|]. split; [exact H2|]. eauto.
    - rewrite bind_run, systemTheme_handler_run.
      destruct (strict_eq _ _ || negb _);
        [|split; [exact H1|]; split; [exact H2|]; eauto].
      destruct callback as [f|]; (split; [exact H1|]); (split; [exact H2|]).
      + exists (calls ++ [Call_callback f (JStr THEMES.SYSTEM)]).
        split; [simpl; rewrite H3, app_assoc; reflexivity|].
        intros id [Hin | Hin%list_elem_of_singleton]%elem_of_app;
          [exact (H4 id Hin) | discriminate Hin].
      + eauto.
    - rewrite bind_run, Hui. split; [exact H1|]. split; [exact H2|]. eauto. }
  assert (Hscript : Inv (world_of (script w0)) /\
            listeners (world_of (script w0)) =
              listeners w0 ++
              (if bool_decide (readyState (document w0) = loading)
               then [mkListener T_document DOMContentLoaded H_initThemeUI] else [])).
  { rewrite script_run.
    pose proof (initTheme_run w0) as Hi. simpl in Hi. rewrite Hi.
    cbn [world_of export_ThemeManager modify].
    assert (Hc : forall id, Call_createThemeSelector id ∉ [Call_initTheme]).
    { intros id Hin%list_elem_of_singleton. discriminate Hin. }
    change (readyState (document (set_window _ (set_document _ (set_history _ w0)))))
      with (readyState (document w0)).
    destruct (bool_decide (readyState (document w0) = loading)).
    - split; [|reflexivity].
      split; [exact He|]. split; [exact Hs|]. eauto.
    - rewrite initThemeUI_run.
      change (elements_by_id (document (set_window _ (set_document _ (set_history _ w0)))))
        with (elements_by_id (document w0)).
      rewrite He. cbn [world_of andb bool_decide].
      replace (bool_decide (is_Some (@None (list nat)))) with false
        by (symmetry; apply bool_decide_eq_false_2; intros [? H]; discriminate H).
      cbn [andb world_of]. split; [|simpl; rewrite app_nil_r; reflexivity].
      split; [exact He|]. split; [exact Hs|]. eauto. }
  assert (H : Inv w).
  { unfold w, page_load.
    apply (dispatch_all_keeps (fun w1 w2 => Inv w1 -> Inv w2)); auto.
    apply Hscript. }
  destruct H as (_ & H2 & H3). split; [exact H2|]. split; [exact H3|].
  apply Hscript.
Qed.


(** ** The listener table of a page, in general *)

Section Wiring.
Variable W : list Listener -> nat -> Prop.
Hypothesis W_mount :
  forall ls n, W ls n -> W (ls ++ selector_listeners n) (S n).
Hypothesis W_change :
  forall ls n callback,
    W ls n -> W (ls ++ [mkListener T_mediaQuery change (H_systemTheme callback)]) n.
Hypothesis W_ready :
  forall ls n,
    W ls n -> W (ls ++ [mkListener T_document DOMContentLoaded H_initThemeUI]) n.

Lemma wiring_same (w w' : World) :
  listeners w' = listeners w ->
  length (selectors (document w')) = length (selectors (document w)) ->
  wiring W w -> wiring W w'.
Proof. unfold wiring. intros -> ->. auto. Qed.

Lemma initThemeUI_wiring (w : World) :
  wiring W w -> wiring W (world_of (initThemeUI w)).
Proof using W_mount W_change.
  intros H. rewrite initThemeUI_run.
  destruct (bool_decide _ && _); [|exact H].
  rewrite bind_run, createThemeSelector_run.
  destruct (elements_by_id (document w) !! "themeToggle");
    rewrite setupSystemThemeListener_run; cbn [world_of];
    match goal with |- context [if ?b then _ else _] => destruct b end;
    unfold wiring in *; simpl; rewrite ?length_app, ?Nat.add_1_r; simpl;
    auto.
Qed.

Lemma run_handler_wiring (h : Handler) (ev : Event) (w : World) :
  wiring W w -> wiring W (world_of (run_handler h ev w)).
Proof using W_mount W_change.
  intros H. destruct h as [sel | sel i | sel | sel | callback |]; unfold run_handler.
  - revert H. apply wiring_same; [reflexivity | simpl; apply length_alter].
  - rewrite bind_run.
    destruct (option_click_handler_wiring sel i w) as [Hl Hn].
    destruct (option_click_handler sel i w); exact (wiring_same _ _ Hl Hn H).
  - revert H. apply wiring_same; [reflexivity | simpl; apply length_alter].
  - destruct ev as [t | t key | matches | | t key | attrs]; try exact H.
    destruct (bool_decide (key = "Escape")); [|exact H].
    revert H. apply wiring_same; [reflexivity | simpl; apply length_alter].
  - rewrite bind_run.
    destruct (systemTheme_handler_wiring callback w) as [Hl Hn].
    destruct (systemTheme_handler callback w); exact (wiring_same _ _ Hl Hn H).
  - rewrite bind_run.
    pose proof (initThemeUI_wiring w H) as H'.
    destruct (initThemeUI w); exact H'.
Qed.

Lemma page_load_wiring (evs : list Event) (w : World) :
  wiring W w -> wiring W (page_load evs w).
Proof using W_mount W_change W_ready.
  intros H. unfold page_load.
  apply (dispatch_all_keeps (fun w w' => wiring W w -> wiring W w')).
  - auto.
  - auto.
  - intros h ev w0. apply run_handler_wiring.
  - intros f w0 H0. exact H0.
  - intros r w0 H0. exact H0.
  - intros attrs w0 H0. exact H0.
  - rewrite script_run.
    pose proof (initTheme_run w) as Hi. simpl in Hi. rewrite Hi.
    cbn [world_of export_ThemeManager modify].
    match goal with |- context [bool_decide ?P] => destruct (bool_decide P) end.
    + unfold wiring in *. simpl. auto.
    + apply initThemeUI_wiring. exact H.
Qed.
End Wiring.

(** ** Buttons, keys and clicks elsewhere *)

Lemma handlers_of_selector_btn_click (n sel : nat) :
  handlers_of (T_btn sel) click (selector_listeners n) =
  if bool_decide (sel = n) then [H_toggle sel] else [].
Proof.
  case_bool_decide as H; [subst sel|]; filter_listeners; reflexivity.
Qed.

Lemma handlers_of_selector_btn_keydown (n sel : nat) :
  handlers_of (T_btn sel) keydown (selector_listeners n) =
  if bool_decide (sel = n) then [H_escape sel] else [].
Proof.
  case_bool_decide as H; [subst sel|]; filter_listeners; reflexivity.
Qed.

Lemma handlers_of_selector_document_keydown (n : nat) :
  handlers_of T_document keydown (selector_listeners n) = [].
Proof. filter_listeners. reflexivity. Qed.

Lemma handlers_of_single (t : EventTarget) (ty : EventType) (l : Listener) :
  l_target l <> t \/ l_type l <> ty -> handlers_of t ty [l] = [].
Proof.
  intros H. unfold handlers_of. rewrite filter_cons_False; [reflexivity|].
  intros [H1 H2]. destruct H; contradiction.
Qed.

Lemma button_wiring_add (ls : list Listener) (n : nat) (l : Listener) :
  l_target l = T_mediaQuery \/ l_type l = DOMContentLoaded ->
  button_wiring ls n -> button_wiring (ls ++ [l]) n.
Proof.
  intros Hl (H1 & H2 & H3 & H4).
  assert (Hnone : forall t ty, t <> T_mediaQuery -> ty <> DOMContentLoaded ->
                    handlers_of t ty [l] = []).
  { intros t ty Ht Hty. apply handlers_of_single.
    destruct Hl as [-> | ->]; [left | right]; congruence. }
  unfold button_wiring.
  split; [|split; [|split]]; intros; rewrite handlers_of_app, Hnone, app_nil_r
    by discriminate; auto.
Qed.

Lemma button_wiring_mount (ls : list Listener) (n : nat) :
  button_wiring ls n -> button_wiring (ls ++ selector_listeners n) (S n).
Proof.
  intros (H1 & H2 & H3 & H4). split; [|split; [|split]].
  - intros sel. rewrite handlers_of_app, H1, handlers_of_selector_btn_click.
    repeat case_bool_decide; try reflexivity; exfalso; lia.
  - intros sel. rewrite handlers_of_app, H2, handlers_of_selector_btn_keydown.
    repeat case_bool_decide; try reflexivity; exfalso; lia.
  - rewrite handlers_of_app, H3, handlers_of_selector_document, seq_S, fmap_app.
    reflexivity.
  - rewrite handlers_of_app, H4, handlers_of_selector_document_keydown. reflexivity.
Qed.

Lemma page_load_button_wiring (w0 : World) (evs : list Event) :
  fresh w0 -> wiring button_wiring (page_load evs w0).
Proof.
  intros [Hs Hl]. apply page_load_wiring.
  - apply button_wiring_mount.
  - intros ls n callback. apply button_wiring_add. left. reflexivity.
  - intros ls n. apply button_wiring_add. right. reflexivity.
  - unfold wiring. rewrite Hs, Hl. repeat split; reflexivity.
Qed.

Lemma handlers_at_wiring (t : EventTarget) (ty : EventType) (w : World) :
  handlers_at t ty w = handlers_of t ty (listeners w).
Proof. reflexivity. Qed.

Lemma click_button_run (sel : nat) (w : World) :
  wiring button_wiring w ->
  sel < length (selectors (document w)) ->
  dispatch (E_click (T_btn sel)) w
  = set_document (set_selectors (alter toggle_dropdown sel)) w.
Proof.
  intros (H1 & _) Hlt. unfold dispatch, event_path, propagate.
  rewrite handlers_at_wiring, H1, bool_decide_eq_true_2 by exact Hlt.
  reflexivity.
Qed.


(** A run of the closing listeners of the selectors [ks]. *)
Lemma invoke_close_run (ks : list nat) (ev : Event) (w : World) :
  invoke_listeners (H_close <$> ks) ev w
  = (false,
     set_document
       (set_selectors (fun l => foldl (fun l k => alter close_dropdown k l) l ks)) w).
Proof.
  revert w. induction ks as [|k ks IH]; intros w.
  - destruct w as [st win [rs de m els sels] ls h]. reflexivity.
  - cbn [fmap list_fmap invoke_listeners run_handler]. simpl.
    rewrite IH. destruct w as [st win [rs de m els sels] ls h]. reflexivity.
Qed.

Lemma close_dropdown_is_closed (s : Selector) : closed (close_dropdown s).
Proof.
  split; [apply classList_remove_spec | simpl; apply lookup_insert_eq].
Qed.

Lemma close_all_lookup (ks : list nat) (l : list Selector) (sel : nat) (s : Selector) :
  l !! sel = Some s ->
  exists s',
    foldl (fun (l : list Selector) (k : nat) => alter close_dropdown k l) l ks !! sel
      = Some s' /\
    same_display s s' /\
    (closed s \/ sel ∈ ks -> closed s').
Proof.
  revert l s. induction ks as [|k ks IH]; intros l s Hs.
  - exists s. split; [exact Hs|]. split; [repeat split|].
    intros [H | H]; [exact H|]. apply elem_of_nil in H. contradiction.
  - simpl. destruct (decide (k = sel)) as [-> | Hne].
    + destruct (IH (alter close_dropdown sel l) (close_dropdown s)) as (s' & H1 & H2 & H3).
      { rewrite list_lookup_alter_eq, Hs. reflexivity. }
      exists s'. split; [exact H1|]. split; [exact H2|].
      intros _. apply H3. left. apply close_dropdown_is_closed.
    + destruct (IH (alter close_dropdown k l) s) as (s' & H1 & H2 & H3).
      { rewrite list_lookup_alter_ne by exact Hne. exact Hs. }
      exists s'. split; [exact H1|]. split; [exact H2|].
      intros [H | H]; apply H3; [left; exact H|].
      apply elem_of_cons in H as [H | H]; [congruence | right; exact H].
Qed.

Lemma classList_toggle_twice (c : string) (cl : gset string) :
  classList_toggle c (classList_toggle c cl) = cl.
Proof.
  unfold classList_toggle at 2, classList_contains.
  destruct (bool_decide (c ∈ cl)) eqn:H.
  - apply bool_decide_eq_true in H.
    unfold classList_toggle, classList_contains.
    rewrite bool_decide_eq_false_2 by apply (classList_remove_spec c cl).
    apply set_eq. intros x.
    rewrite elem_of_union, elem_of_difference, elem_of_singleton. split.
    + intros [[Hx _] | ->]; assumption.
    + intros Hx. destruct (decide (x = c)); [right; assumption | left; split; assumption].
  - apply bool_decide_eq_false in H.
    unfold classList_toggle, classList_contains.
    rewrite bool_decide_eq_true_2
      by (apply elem_of_union; right; apply elem_of_singleton; reflexivity).
    apply set_eq. intros x.
    rewrite elem_of_difference, elem_of_union, elem_of_singleton. split.
    + intros [[Hx | ->] Hn]; [assumption | contradiction].
    + intros Hx. split; [left; assumption | intros ->; contradiction].
Qed.

Lemma toggle_dropdown_twice (s : Selector) :
  aria_synced s -> toggle_dropdown (toggle_dropdown s) = s.
Proof.
  intros Ha. destruct s as [cn attrs icon label cl opts].
  unfold aria_synced in Ha. simpl in Ha.
  unfold toggle_dropdown, btn_setAttribute, set_btn_attrs, set_dropdown_classList.
  simpl. f_equal.
  - rewrite insert_insert_eq. apply insert_id. rewrite Ha. f_equal.
    fold (classList_contains "open" (classList_toggle "open" cl)).
    unfold classList_contains at 1. rewrite classList_toggle_open.
    unfold classList_contains. destruct (bool_decide ("open" ∈ cl)); reflexivity.
  - apply classList_toggle_twice.
Qed.

Lemma alter_fixed {A} (f : A -> A) (i : nat) (l : list A) (x : A) :
  l !! i = Some x -> f x = x -> alter f i l = l.
Proof.
  intros Hx Hf. rewrite <- (list_alter_id (fun y => y) l i) at 2 by reflexivity.
  apply list_alter_ext; [|reflexivity].
  intros y Hy. rewrite Hx in Hy. injection Hy as <-. exact Hf.
Qed.

(** X18.  On a page loaded from a fresh document, a click on the button of
    a selector toggles the dropdown of that selector and sets
    [aria-expanded] accordingly; the event does not reach the document, so
    every other selector, open or closed, stays as it is, and so do what
    the selector shows, the storage, the theme, the listeners and the
    history. *)
Theorem button_click_toggles (w0 : World) (evs : list Event) (sel : nat) (s : Selector) :
  fresh w0 ->
  let w := page_load evs w0 in
  selectors (document w) !! sel = Some s ->
  let w' := dispatch (E_click (T_btn sel)) w in
  exists s',
    selectors (document w') !! sel = Some s' /\
    ("open" ∈ dropdown_classList s' <-> "open" ∉ dropdown_classList s) /\
    btn_attrs s' !! "aria-expanded"
      = Some (if bool_decide ("open" ∈ dropdown_classList s) then "false" else "true") /\
    same_display s s' /\
    (forall k, k <> sel -> selectors (document w') !! k = selectors (document w) !! k) /\
    localStorage w' = localStorage w /\
    documentElement (document w') = documentElement (document w) /\
    meta_theme_color (document w') = meta_theme_color (document w) /\
    listeners w' = listeners w /\ history w' = history w.
Proof.
  intros Hfresh w Hs w'.
  assert (Hrun : w' = set_document (set_selectors (alter toggle_dropdown sel)) w).
  { apply click_button_run; [apply page_load_button_wiring, Hfresh|].
    exact (lookup_lt_Some _ _ _ Hs). }
  rewrite Hrun. exists (toggle_dropdown s).
  split; [simpl; rewrite list_lookup_alter_eq, Hs; reflexivity|].
  split.
  { simpl. rewrite <- (bool_decide_eq_true ("open" ∈ classList_toggle _ _)).
    rewrite classList_toggle_open. unfold classList_contains.
    rewrite negb_true_iff, bool_decide_eq_false. reflexivity. }
  split.
  { simpl. rewrite lookup_insert_eq. unfold classList_contains.
    destruct (bool_decide ("open" ∈ dropdown_classList s)); reflexivity. }
  split; [repeat split|].
  split; [intros k Hk; simpl; apply list_lookup_alter_ne; congruence|].
  repeat split.
Qed.

(** X19.  On a page loaded from a fresh document, two clicks on the button
    of a selector leave the world exactly as it was. *)
Theorem button_click_twice (w0 : World) (evs : list Event) (sel : nat) (s : Selector) :
  fresh w0 ->
  let w := page_load evs w0 in
  selectors (document w) !! sel = Some s ->
  dispatch (E_click (T_btn sel)) (dispatch (E_click (T_btn sel)) w) = w.
Proof.
  intros Hfresh w Hs.
  assert (Hw : wiring button_wiring w) by apply page_load_button_wiring, Hfresh.
  assert (Hlt : sel < length (selectors (document w))) by exact (lookup_lt_Some _ _ _ Hs).
  rewrite (click_button_run sel w Hw Hlt).
  rewrite click_button_run;
    [|revert Hw; apply wiring_same; [reflexivity | simpl; apply length_alter]
     |simpl; rewrite length_alter; exact Hlt].
  assert (Ha : aria_synced s).
  { destruct Hfresh as [H0 _].
    exact (Forall_lookup_1 _ _ _ _ (page_load_aria_synced w0 evs H0) Hs). }
  generalize dependent w. intros w Hs Hw Hlt.
  destruct w as [st win [rs de m els sels] ls h]. simpl in *.
  unfold set_document, set_selectors. simpl. do 2 f_equal.
  rewrite list_alter_alter_eq.
  apply (alter_fixed _ sel sels s Hs). simpl. apply toggle_dropdown_twice, Ha.
Qed.


(** X21.  On a page loaded from a fresh document, a click that reaches only
    the document closes the dropdown of every selector and changes nothing
    else: what the selectors show, the storage, the theme, the listeners
    and the history stay. *)
Theorem document_click_closes_all (w0 : World) (evs : list Event) :
  fresh w0 ->
  let w := page_load evs w0 in
  let w' := dispatch (E_click T_document) w in
  (forall sel s, selectors (document w) !! sel = Some s ->
     exists s', selectors (document w') !! sel = Some s' /\
                closed s' /\ same_display s s') /\
  length (selectors (document w')) = length (selectors (document w)) /\
  localStorage w' = localStorage w /\
  documentElement (document w') = documentElement (document w) /\
  meta_theme_color (document w') = meta_theme_color (document w) /\
  listeners w' = listeners w /\ history w' = history w.
Proof.
  intros Hfresh w w'.
  destruct (page_load_button_wiring w0 evs Hfresh) as (_ & _ & H3 & _). fold w in H3.
  assert (Hrun : w' = set_document
                        (set_selectors (fun l =>
                           foldl (fun l k => alter close_dropdown k l) l
                                 (seq 0 (length (selectors (document w)))))) w).
  { unfold w', dispatch, event_path, propagate.
    rewrite handlers_at_wiring, H3, invoke_close_run. reflexivity. }
  rewrite Hrun. split.
  - intros sel s Hs.
    destruct (close_all_lookup (seq 0 (length (selectors (document w))))
                (selectors (document w)) sel s Hs) as (s' & H1 & H2 & Hc).
    exists s'. split; [exact H1|]. split; [|exact H2].
    apply Hc. right. apply elem_of_seq. split; [lia|].
    simpl. exact (lookup_lt_Some _ _ _ Hs).
  - split; [|repeat split].
    simpl. generalize (seq 0 (length (selectors (document w)))).
    generalize (selectors (document w)).
    intros l ks. revert l. induction ks as [|k ks IH]; intros l; [reflexivity|].
    simpl. rewrite IH. apply length_alter.
Qed.


(** ** Subscribing to the system theme *)

(** X10.  [setupSystemThemeListener] registers nothing when
    [window.matchMedia] is missing; otherwise it registers one change
    listener, by [addEventListener] or by the legacy [addListener] alike.
    With that listener the only one, an OS change then does this: under the
    preference "system" (or none) the document gets the theme the system now
    reports and the callback, if any, is called once, with "system"; under
    an explicit preference neither the document nor the history changes. *)
Theorem setupSystemThemeListener_then_change (callback : option Callback)
    (matches : bool) (w : World) :
  handlers_at T_mediaQuery change w = [] ->
  let w1 := world_of (setupSystemThemeListener callback w) in
  let w2 := dispatch (E_change matches) w1 in
  (matchMedia_defined (window w) = false ->
   setupSystemThemeListener callback w = Normal tt w) /\
  (matchMedia_defined (window w) = true ->
   listeners w1
     = listeners w ++ [mkListener T_mediaQuery change (H_systemTheme callback)] /\
   (follows_system w = true ->
    documentElement (document w2) !! "data-theme"
      = Some (if matches then "dark" else "light") /\
    history w2 = history w ++ match callback with
                              | Some f => [Call_callback f (JStr "system")]
                              | None => []
                              end) /\
   (follows_system w = false ->
    document w2 = document w /\ history w2 = history w)).
Proof.
  intros Hnone w1 w2. split.
  - intros Hm. rewrite setupSystemThemeListener_run, Hm. reflexivity.
  - intros Hm.
    assert (Hw1 : w1 = set_listeners
                         (fun ls => ls ++ [mkListener T_mediaQuery change
                                             (H_systemTheme callback)]) w).
    { unfold w1. rewrite setupSystemThemeListener_run, Hm. reflexivity. }
    split; [rewrite Hw1; reflexivity|].
    assert (Hh : handlers_at T_mediaQuery change w1 = [H_systemTheme callback]).
    { rewrite Hw1, handlers_at_of. simpl.
      rewrite handlers_of_app, <- handlers_at_of, Hnone. reflexivity. }
    pose proof (change_event_runs_handler callback matches w1 Hh) as Hd.
    cbn zeta in Hd. fold w2 in Hd. rewrite Hd, systemTheme_handler_run.
    match goal with |- context [strict_eq (stored_preference ?x) _] =>
      change (strict_eq (stored_preference x) (JStr THEMES.SYSTEM)
              || negb (truthy (stored_preference x)))
        with (follows_system x);
      rewrite (follows_system_storage x w) by (rewrite Hw1; reflexivity)
    end.
    split; intros Hf; rewrite Hf; cbn [world_of].
    + split.
      * destruct callback; simpl; rewrite lookup_insert_eq;
          unfold system_theme, dark_query_matches; rewrite Hw1; simpl;
          rewrite Hm; destruct matches; reflexivity.
      * destruct callback; rewrite Hw1; simpl; [reflexivity|].
        rewrite app_nil_r. reflexivity.
    + rewrite Hw1. split; reflexivity.
Qed.

(** ** When the widget is built *)

(** X22.  The widget waits for the document.  On a fresh page with a
    container "themeToggle": while the document is loading the script builds
    no selector and only calls [initTheme], and the selector appears when
    [DOMContentLoaded] is delivered; when the document is no longer loading
    the script builds the selector itself.  Either way it is the selector of
    the stored preference. *)
Theorem widget_built_when_document_ready (w0 : World) (ch : list nat) (st : Value) :
  fresh w0 ->
  elements_by_id (document w0) !! "themeToggle" = Some ch ->
  getStoredTheme w0 = Normal st w0 ->
  let s := selector_template (js_or st (JStr "system")) in
  (readyState (document w0) = loading ->
   selectors (document (world_of (script w0))) = [] /\
   history (world_of (script w0)) = history w0 ++ [Call_initTheme] /\
   selectors (document (page_load [E_DOMContentLoaded] w0)) = [s]) /\
  (readyState (document w0) <> loading ->
   selectors (document (world_of (script w0))) = [s]).
Proof.
  intros [Hs Hl] Hc Hst%getStoredTheme_inv s.
  pose proof (initTheme_run w0) as Hi. simpl in Hi.
  assert (Hui : forall w : World,
            elements_by_id (document w) = elements_by_id (document w0) ->
            ThemeManager_defined (window w) = true ->
            selectors (document w) = [] ->
            localStorage w = localStorage w0 ->
            selectors (document (world_of (initThemeUI w))) = [s]).
  { intros w He Ht Hsel Hsto. rewrite initThemeUI_run, He, Hc, Ht.
    rewrite bool_decide_eq_true_2 by eauto. cbn [andb].
    rewrite bind_run, createThemeSelector_run, He, Hc.
    rewrite setupSystemThemeListener_run. cbn [world_of].
    replace (stored_preference w) with st
      by (rewrite Hst; unfold stored_preference; rewrite Hsto; reflexivity).
    match goal with |- context [if ?b then _ else _] => destruct b end;
      simpl; rewrite Hsel; reflexivity. }
  split.
  - intros Hr.
    assert (Hscript : world_of (script w0)
              = set_listeners (fun ls => ls ++ [mkListener T_document DOMContentLoaded
                                                  H_initThemeUI])
                  (world_of (export_ThemeManager (world_of (initTheme w0))))).
    { rewrite script_run, Hi. cbn [world_of export_ThemeManager modify].
      change (readyState (document (set_window _ (set_document _ (set_history _ w0)))))
        with (readyState (document w0)).
      rewrite Hr. reflexivity. }
    split; [rewrite Hscript, Hi; simpl; exact Hs|].
    split; [rewrite Hscript, Hi; reflexivity|].
    unfold page_load. rewrite Hscript, Hi.
    cbn [world_of export_ThemeManager modify dispatch_all foldl dispatch event_path
         propagate].
    match goal with |- context [handlers_at T_document DOMContentLoaded ?W] =>
      assert (Hh : handlers_at T_document DOMContentLoaded W = [H_initThemeUI]);
      [ rewrite handlers_at_of;
        change (listeners W)
          with (listeners w0 ++ [mkListener T_document DOMContentLoaded H_initThemeUI]);
        rewrite Hl; unfold handlers_of; cbn [app];
        rewrite filter_cons_True by (split; reflexivity); reflexivity
      | rewrite Hh ]
    end.
    cbn [invoke_listeners run_handler]. rewrite bind_run.
    match goal with |- context [initThemeUI ?w] =>
      pose proof (Hui w eq_refl eq_refl Hs eq_refl) as H;
      destruct (initThemeUI w)
    end; cbn [fst snd orb world_of] in *; exact H.
  - intros Hr. rewrite script_run, Hi. cbn [world_of export_ThemeManager modify].
    change (readyState (document (set_window _ (set_document _ (set_history _ w0)))))
      with (readyState (document w0)).
    rewrite bool_decide_eq_false_2 by exact Hr.
    apply Hui; try reflexivity. exact Hs.
Qed.


(** ** The further properties at work on the sample worlds *)

Lemma getEffectiveTheme_idempotent_witness :
  exists eff,
    getEffectiveTheme (JStr "system") w_system_dark = Normal eff w_system_dark /\
    eff = JStr "dark".
Proof.
  destruct (getEffectiveTheme_idempotent (JStr "system") w_system_dark)
    as (eff & Hrun & _ & Hcase).
  exists eff. split; [exact Hrun|].
  destruct (Hcase (or_intror (or_intror (or_introl eq_refl)))) as [H | H]; [|exact H].
  rewrite H in Hrun. discriminate Hrun.
Defined.

Lemma storeTheme_frame_witness :
  "lang" <> THEME_KEY /\
  exists w', storeTheme (JStr "dark") w_other_item = Normal tt w' /\
             items (localStorage w') !! "lang" = Some "en".
Proof.
  split; [discriminate|].
  destruct (storeTheme_frame (JStr "dark") w_other_item) as (w' & Hrun & Hk & _).
  exists w'. split; [exact Hrun|].
  rewrite (Hk "lang") by discriminate. reflexivity.
Defined.

Lemma store_then_get_is_ToString_witness :
  getItem_fails (localStorage w_fresh) = None /\
  setItem_fails (localStorage w_fresh) THEME_KEY (ToString JNull) = None /\
  exists w', (storeTheme JNull ;; getStoredTheme) w_fresh = Normal (JStr "null") w'.
Proof.
  split; [reflexivity|]. split; [reflexivity|].
  apply (store_then_get_is_ToString JNull w_fresh); reflexivity.
Defined.

Lemma storeTheme_last_wins_witness :
  setItem_fails (localStorage w_fresh) THEME_KEY (ToString (JStr "dark")) = None /\
  (storeTheme (JStr "light") ;; storeTheme (JStr "dark")) w_fresh
  = storeTheme (JStr "dark") w_fresh.
Proof.
  split; [reflexivity|].
  apply (storeTheme_last_wins (JStr "light") (JStr "dark") w_fresh). reflexivity.
Defined.

Lemma setTheme_then_initTheme_witness :
  "dark" <> "" /\
  getItem_fails (localStorage w_fresh) = None /\
  setItem_fails (localStorage w_fresh) THEME_KEY "dark" = None /\
  localStorage (world_of (setTheme (JStr "dark") None w_fresh))
    = localStorage (world_of (setTheme (JStr "dark") None w_fresh)) /\
  exists eff w3,
    initTheme (world_of (setTheme (JStr "dark") None w_fresh)) = Normal (JStr "dark") w3 /\
    getEffectiveTheme (JStr "dark") (world_of (setTheme (JStr "dark") None w_fresh))
      = Normal eff (world_of (setTheme (JStr "dark") None w_fresh)) /\
    documentElement (document w3) !! "data-theme" = Some (ToString eff).
Proof.
  split; [discriminate|]. split; [reflexivity|]. split; [reflexivity|].
  split; [reflexivity|].
  apply (setTheme_then_initTheme "dark" None w_fresh
           (world_of (setTheme (JStr "dark") None w_fresh)));
    [discriminate | reflexivity | reflexivity | reflexivity].
Defined.

Lemma createThemeSelector_mounts_witness :
  elements_by_id (document w_light) !! "themeToggle" = Some [] /\
  exists s w',
    createThemeSelector "themeToggle" w_light = Normal (Some 0) w' /\
    selectors (document w') = [s] /\
    btn_label_textContent s = "Light" /\
    closed s.
Proof.
  split; [reflexivity|].
  destruct (createThemeSelector_mounts "themeToggle" w_light [] eq_refl)
    as (st & s & w' & Hst & Hrun & Hsel & _ & _ & _ & _ & _ & _ & _ & _ & Hlabel & Hc & _).
  exists s, w'. split; [exact Hrun|]. split; [exact Hsel|]. split; [|exact Hc].
  rewrite Hlabel. injection Hst as <-. reflexivity.
Defined.

Lemma createThemeSelector_unknown_preference_witness :
  elements_by_id (document w_blue) !! "themeToggle" = Some [] /\
  getStoredTheme w_blue = Normal (JStr "blue") w_blue /\
  JStr "blue" <> JStr "light" /\ JStr "blue" <> JStr "dark" /\
  exists n s w',
    createThemeSelector "themeToggle" w_blue = Normal (Some n) w' /\
    selectors (document w') !! n = Some s /\
    btn_label_textContent s = "System" /\
    (forall j o, options s !! j = Some o -> "active" ∉ opt_classList o).
Proof.
  split; [reflexivity|]. split; [reflexivity|].
  split; [discriminate|]. split; [discriminate|].
  destruct (createThemeSelector_unknown_preference "themeToggle" w_blue [] (JStr "blue")
              eq_refl eq_refl)
    as (n & s & w' & Hrun & Hs & _ & Hlabel & Hact); [discriminate | discriminate |].
  exists n, s, w'. split; [exact Hrun|]. split; [exact Hs|]. split; [exact Hlabel|].
  intros j o Ho Hin. apply (Hact j o Ho) in Hin as [_ [H | H]]; discriminate H.
Defined.

Lemma setTheme_unknown_theme_witness :
  selectors (document w_widget) !! 0 = Some (selector_template (JStr "system")) /\
  selector_wf (selector_template (JStr "system")) /\
  "blue" <> "" /\ ~ is_theme "blue" /\
  exists w' s',
    setTheme (JStr "blue") (Some 0) w_widget = Normal tt w' /\
    persisted w' = Some "blue" /\
    documentElement (document w') !! "data-theme" = Some "blue" /\
    selectors (document w') !! 0 = Some s' /\
    btn_label_textContent s' = "System".
Proof.
  assert (Hnt : ~ is_theme "blue") by (intros [H | [H | H]]; discriminate H).
  split; [reflexivity|]. split; [reflexivity|]. split; [discriminate|].
  split; [exact Hnt|].
  destruct (setTheme_unknown_theme "blue" 0 (selector_template (JStr "system")) w_widget
              eq_refl eq_refl)
    as (w' & s' & Hrun & Hp & Hattr & Hs' & _ & Hlabel & _); [discriminate | exact Hnt |].
  exists w', s'. split; [exact Hrun|]. split; [apply Hp; reflexivity|].
  split; [exact Hattr|]. split; [exact Hs' | exact Hlabel].
Defined.

Lemma setupSystemThemeListener_then_change_witness :
  handlers_at T_mediaQuery change w_system = [] /\
  matchMedia_defined (window w_system) = true /\
  follows_system w_system = true /\
  let w1 := world_of (setupSystemThemeListener (Some "onChange") w_system) in
  let w2 := dispatch (E_change true) w1 in
  documentElement (document w2) !! "data-theme" = Some "dark" /\
  history w2 = [Call_callback "onChange" (JStr "system")].
Proof.
  split; [reflexivity|]. split; [reflexivity|]. split; [reflexivity|].
  destruct (setupSystemThemeListener_then_change (Some "onChange") true w_system eq_refl)
    as [_ H].
  destruct (H eq_refl) as (_ & Hsys & _).
  exact (Hsys eq_refl).
Defined.

Lemma change_event_on_loaded_page_witness :
  fresh w_system /\
  handlers_at T_mediaQuery change (page_load [E_DOMContentLoaded] w_system) <> [] /\
  follows_system (page_load [E_DOMContentLoaded] w_system) = true /\
  documentElement
    (document (dispatch (E_change true) (page_load [E_DOMContentLoaded] w_system)))
    !! "data-theme" = Some "dark".
Proof.
  assert (Hne : handlers_at T_mediaQuery change (page_load [E_DOMContentLoaded] w_system)
                <> []) by (vm_compute; discriminate).
  split; [split; reflexivity|]. split; [exact Hne|]. split; [reflexivity|].
  pose proof (change_event_on_loaded_page w_system [E_DOMContentLoaded] true
                (conj eq_refl eq_refl) Hne) as H.
  cbn zeta in H.
  replace (follows_system (page_load [E_DOMContentLoaded] w_system)) with true in H
    by reflexivity.
  rewrite H. reflexivity.
Defined.

Lemma aria_expanded_follows_open_witness :
  selectors (document w_fresh) = [] /\
  (exists s,
     selectors (document (page_load [E_DOMContentLoaded; E_click (T_btn 0)] w_fresh)) !! 0
       = Some s /\
     btn_attrs s !! "aria-expanded" =
     Some (if bool_decide ("open" ∈ dropdown_classList s) then "true" else "false")).
Proof.
  split; [reflexivity|].
  eexists. split; [reflexivity|].
  apply (aria_expanded_follows_open w_fresh [E_DOMContentLoaded; E_click (T_btn 0)] 0);
    reflexivity.
Defined.

Lemma active_option_is_the_one_shown_witness :
  selectors (document w_fresh) = [] /\
  selectors (document w_widget) !! 0 = Some (selector_template (JStr "system")) /\
  options (selector_template (JStr "system")) !! 2
    = Some (mkOptionEl {["theme-option"; "active"]} "system" ICONS.system "System") /\
  "active" ∈ ({["theme-option"; "active"]} : gset string) /\
  btn_label_textContent (selector_template (JStr "system")) = getLabelForTheme (JStr "system").
Proof.
  assert (Hin : "active" ∈ ({["theme-option"; "active"]} : gset string)).
  { apply elem_of_union. right. apply elem_of_singleton. reflexivity. }
  split; [reflexivity|]. split; [reflexivity|]. split; [reflexivity|].
  split; [exact Hin|].
  exact (proj1 (proj2 (active_option_is_the_one_shown w_fresh [E_DOMContentLoaded] 0
                         (selector_template (JStr "system")) 2
                         (mkOptionEl {["theme-option"; "active"]} "system"
                                     ICONS.system "System")
                         eq_refl eq_refl eq_refl Hin))).
Defined.

Lemma data_theme_is_light_or_dark_witness :
  Forall selector_wf (selectors (document w_fresh)) /\
  getStoredTheme w_fresh = Normal JNull w_fresh /\
  (documentElement
     (document (page_load [E_DOMContentLoaded; E_change true] w_fresh)) !! "data-theme"
     = Some "light" \/
   documentElement
     (document (page_load [E_DOMContentLoaded; E_change true] w_fresh)) !! "data-theme"
     = Some "dark").
Proof.
  split; [apply Forall_nil_2|]. split; [reflexivity|].
  apply (data_theme_is_light_or_dark w_fresh [E_DOMContentLoaded; E_change true] JNull);
    [apply Forall_nil_2 | reflexivity | left; reflexivity].
Defined.

Lemma no_widget_without_mount_point_witness :
  elements_by_id (document w_no_mount) !! "themeToggle" = None /\
  selectors (document w_no_mount) = [] /\
  selectors (document (page_load [E_DOMContentLoaded; E_click T_document] w_no_mount))
    = [].
Proof.
  split; [reflexivity|]. split; [reflexivity|].
  exact (proj1 (no_widget_without_mount_point w_no_mount
                  [E_DOMContentLoaded; E_click T_document] eq_refl eq_refl)).
Defined.

Lemma button_click_toggles_witness :
  fresh w_fresh /\
  selectors (document w_widget) !! 0 = Some (selector_template (JStr "system")) /\
  exists s',
    selectors (document (dispatch (E_click (T_btn 0)) (page_load [E_DOMContentLoaded] w_fresh)))
      !! 0 = Some s' /\
    btn_attrs s' !! "aria-expanded" = Some "true".
Proof.
  split; [split; reflexivity|]. split; [reflexivity|].
  destruct (button_click_toggles w_fresh [E_DOMContentLoaded] 0
              (selector_template (JStr "system")) (conj eq_refl eq_refl) eq_refl)
    as (s' & Hs' & _ & Haria & _).
  exists s'. split; [exact Hs'|]. rewrite Haria. reflexivity.
Defined.

Lemma button_click_twice_witness :
  fresh w_fresh /\
  selectors (document w_widget) !! 0 = Some (selector_template (JStr "system")) /\
  dispatch (E_click (T_btn 0)) (dispatch (E_click (T_btn 0)) w_widget) = w_widget.
Proof.
  split; [split; reflexivity|]. split; [reflexivity|].
  exact (button_click_twice w_fresh [E_DOMContentLoaded] 0
           (selector_template (JStr "system")) (conj eq_refl eq_refl) eq_refl).
Defined.


Lemma document_click_closes_all_witness :
  fresh w_fresh /\
  selectors (document (page_load [E_DOMContentLoaded; E_click (T_btn 0)] w_fresh)) !! 0
    = Some (toggle_dropdown (selector_template (JStr "system"))) /\
  exists s',
    selectors
      (document (dispatch (E_click T_document)
                   (page_load [E_DOMContentLoaded; E_click (T_btn 0)] w_fresh))) !! 0
      = Some s' /\
    closed s'.
Proof.
  split; [split; reflexivity|]. split; [reflexivity|].
  destruct (proj1 (document_click_closes_all w_fresh [E_DOMContentLoaded; E_click (T_btn 0)]
                     (conj eq_refl eq_refl))
              0 (toggle_dropdown (selector_template (JStr "system"))) eq_refl)
    as (s' & Hs' & Hc & _).
  exists s'. split; [exact Hs' | exact Hc].
Defined.

Lemma widget_built_when_document_ready_witness :
  fresh w_fresh /\
  elements_by_id (document w_fresh) !! "themeToggle" = Some [] /\
  getStoredTheme w_fresh = Normal JNull w_fresh /\
  readyState (document w_fresh) = loading /\
  selectors (document (world_of (script w_fresh))) = [] /\
  selectors (document (page_load [E_DOMContentLoaded] w_fresh))
    = [selector_template (JStr "system")].
Proof.
  split; [split; reflexivity|]. split; [reflexivity|]. split; [reflexivity|].
  split; [reflexivity|].
  destruct (proj1 (widget_built_when_document_ready w_fresh [] JNull
                     (conj eq_refl eq_refl) eq_refl eq_refl) eq_refl)
    as (H1 & _ & H3).
  split; [exact H1 | exact H3].
Defined.

(** ** A stored string that is no theme *)



(** ** The change event, from registration to delivery *)

(** C4.  Once [setupSystemThemeListener] has registered its handler, as the
    only change listener of the media query, the change event of the OS
    dark-mode query does this.  When the stored preference is "system" or
    absent ([null], or the empty string), the theme "system" is applied in
    the world where the query has its new value, so that [data-theme]
    becomes the theme the system now reports, and then the callback, if one
    was given, is called with "system".  When the stored preference is
    "light" or "dark", nothing happens: the world is the one before the
    event but for the value of the query; the document is not touched and
    the callback is not called. *)
Theorem system_change_handler (callback : option Callback) (matches : bool)
    (w : World) (st : Value) :
  matchMedia_defined (window w) = true ->
  handlers_at T_mediaQuery change w = [] ->
  getStoredTheme w = Normal st w ->
  let w1 := world_of (setupSystemThemeListener callback w) in
  let changed := set_window (fun win =>
                   mkWindow (matchMedia_defined win) matches
                            (mq_addEventListener_defined win)
                            (ThemeManager_defined win)) w1 in
  let w2 := dispatch (E_change matches) w1 in
  handlers_at T_mediaQuery change w1 = [H_systemTheme callback] /\
  (st = JStr "system" \/ st = JNull \/ st = JStr "" ->
   exists w3,
     applyTheme (JStr "system") changed = Normal tt w3 /\
     documentElement (document w3) !! "data-theme"
       = Some (if matches then "dark" else "light") /\
     w2 = match callback with
          | Some f => set_history (fun h => h ++ [Call_callback f (JStr "system")]) w3
          | None => w3
          end) /\
  (st = JStr "light" \/ st = JStr "dark" ->
   w2 = changed /\ document w2 = document w1 /\ history w2 = history w1).
Proof.
  intros Hm Hnone Hst w1 changed w2.
  assert (Hw1 : w1 = set_listeners
                       (fun ls => ls ++ [mkListener T_mediaQuery change
                                           (H_systemTheme callback)]) w).
  { unfold w1. rewrite setupSystemThemeListener_run, Hm. reflexivity. }
  assert (Hh : handlers_at T_mediaQuery change w1 = [H_systemTheme callback]).
  { rewrite Hw1, handlers_at_of. simpl.
    rewrite handlers_of_app, <- handlers_at_of, Hnone. reflexivity. }
  assert (Hst' : getStoredTheme changed = Normal st changed).
  { rewrite getStoredTheme_run. f_equal.
    apply getStoredTheme_inv in Hst. rewrite Hst.
    unfold changed. rewrite Hw1. reflexivity. }
  pose proof (change_event_runs_handler callback matches w1 Hh) as Hd.
  cbn zeta in Hd. fold changed w2 in Hd.
  destruct (systemTheme_handler_by_preference callback changed st Hst') as [Hsys Hexp].
  split; [exact Hh|]. split.
  - intros Hcase. destruct (Hsys Hcase) as (w3 & Happly & Hattr & Hrun).
    exists w3. split; [exact Happly|]. split.
    + rewrite Hattr. unfold dark_query_matches, changed. rewrite Hw1. simpl.
      rewrite Hm. reflexivity.
    + rewrite Hd, Hrun. reflexivity.
  - intros Hcase. rewrite Hd, (Hexp Hcase). cbn [world_of].
    split; [reflexivity|]. split; reflexivity.
Qed.

(** ** The order of initialisation *)

(** C9.  The theme is applied before the widget is built, in every page
    load.  The script begins with [initTheme], which leaves the theme the
    stored preference resolves to in [data-theme], builds nothing and
    registers nothing; only from the world so left does the script go on to
    [initThemeUI] or to the registration of the listener that will call it.
    From then on the theme stays on the document: it is there after any
    events, and no handler takes it away, so that a [DOMContentLoaded]
    listener that builds the widget starts with the theme applied.  And in
    the history of the page load every entry into [createThemeSelector]
    comes after an entry into [initTheme]. *)
Theorem initTheme_before_createThemeSelector (w : World) (evs : list Event) :
  (exists st eff w1,
     getStoredTheme w = Normal st w /\
     getEffectiveTheme (js_or st (JStr "system")) w = Normal eff w /\
     initTheme w = Normal (js_or st (JStr "system")) w1 /\
     documentElement (document w1) !! "data-theme" = Some (ToString eff) /\
     selectors (document w1) = selectors (document w) /\
     listeners w1 = listeners w /\
     history w1 = history w ++ [Call_initTheme] /\
     script w =
       (export_ThemeManager ;;
        rs ← gets (fun w => readyState (document w));
        if bool_decide (rs = loading)
        then addEventListener T_document DOMContentLoaded H_initThemeUI
        else initThemeUI) w1) /\
  theme_applied (page_load evs w) /\
  (forall h ev x, theme_applied x -> theme_applied (world_of (run_handler h ev x))) /\
  (forall ev x, theme_applied x -> theme_applied (dispatch ev x)) /\
  (forall h1 h2 containerId,
     history (page_load evs w)
       = history w ++ h1 ++ Call_createThemeSelector containerId :: h2 ->
     Call_initTheme ∈ h1).
Proof.
  split; [|split; [|split; [|split]]].
  - pose proof (initTheme_run w) as Hi. simpl in Hi.
    eexists _, _, _.
    split; [apply getStoredTheme_run|].
    split; [apply getEffectiveTheme_run|].
    split; [exact Hi|].
    split; [simpl; apply lookup_insert_eq|].
    split; [reflexivity|]. split; [reflexivity|]. split; [reflexivity|].
    unfold script. rewrite (bind_Normal _ _ _ _ _ Hi). reflexivity.
  - apply page_load_theme_applied.
  - apply run_handler_theme_applied.
  - intros ev x.
    apply (dispatch_keeps (fun w w' => theme_applied w -> theme_applied w')).
    + auto.
    + auto.
    + intros h ev0 w0. apply run_handler_theme_applied.
    + intros f w0 H. exact H.
    + intros r w0 H. exact H.
    + intros attrs w0 H. exact H.
  - intros h1 h2 containerId. apply history_initTheme_first.
Qed.

(** ** The three theorems above at work *)


Lemma system_change_handler_witness :
  matchMedia_defined (window w_system) = true /\
  handlers_at T_mediaQuery change w_system = [] /\
  getStoredTheme w_system = Normal (JStr "system") w_system /\
  (let w1 := world_of (setupSystemThemeListener (Some "onChange") w_system) in
   let w2 := dispatch (E_change true) w1 in
   documentElement (document w2) !! "data-theme" = Some "dark" /\
   history w2 = [Call_callback "onChange" (JStr "system")]) /\
  matchMedia_defined (window w_light) = true /\
  handlers_at T_mediaQuery change w_light = [] /\
  getStoredTheme w_light = Normal (JStr "light") w_light /\
  (let w1 := world_of (setupSystemThemeListener (Some "onChange") w_light) in
   let w2 := dispatch (E_change false) w1 in
   document w2 = document w1 /\ history w2 = history w1).
Proof.
  split; [reflexivity|]. split; [reflexivity|]. split; [reflexivity|]. split.
  { destruct (system_change_handler (Some "onChange") true w_system (JStr "system")
                eq_refl eq_refl eq_refl) as (_ & Hsys & _).
    destruct (Hsys (or_introl eq_refl)) as (w3 & Happly & Hattr & Hw2).
    cbv zeta. rewrite Hw2. split; [exact Hattr|].
    injection Happly as <-. reflexivity. }
  split; [reflexivity|]. split; [reflexivity|]. split; [reflexivity|].
  destruct (system_change_handler (Some "onChange") false w_light (JStr "light")
              eq_refl eq_refl eq_refl) as (_ & _ & Hexp).
  exact (proj2 (Hexp (or_introl eq_refl))).
Defined.

Lemma initTheme_before_createThemeSelector_witness :
  history (page_load [E_DOMContentLoaded] w_fresh)
    = history w_fresh ++ [Call_initTheme] ++ Call_createThemeSelector "themeToggle" :: [] /\
  Call_initTheme ∈ [Call_initTheme] /\
  theme_applied (page_load [E_DOMContentLoaded] w_fresh).
Proof.
  destruct (initTheme_before_createThemeSelector w_fresh [E_DOMContentLoaded])
    as (_ & Happlied & _ & _ & Horder).
  split; [reflexivity|]. split; [|exact Happlied].
  apply (Horder [Call_initTheme] [] "themeToggle"). reflexivity.
Defined.

(** A theme-color meta tag that the parser reaches after the script has run
    keeps the content it was written with, whatever the theme, until a
    theme is next applied. *)
Example scenario_meta_parsed_after_script :
  let w := page_load [E_parsed_meta (<["content" := "#ffffff"]> ∅); E_DOMContentLoaded]
             w_late_meta in
  documentElement (document w) !! "data-theme" = Some "dark" /\
  (meta_theme_color (document w) ≫= fun m => m !! "content") = Some "#ffffff" /\
  (meta_theme_color (document (dispatch (E_click (T_option 0 1)) w))
     ≫= fun m => m !! "content") = Some "#0f3460".
Proof. repeat split; vm_compute; reflexivity. Qed.

Lemma theme_color_follows_data_theme_witness :
  is_Some (meta_theme_color (document w_system_dark)) /\
  exists t m,
    documentElement
      (document (page_load [E_DOMContentLoaded; E_click (T_option 0 0)] w_system_dark))
      !! "data-theme" = Some t /\
    meta_theme_color
      (document (page_load [E_DOMContentLoaded; E_click (T_option 0 0)] w_system_dark))
      = Some m /\
    m !! "content" = Some (if bool_decide (t = "dark") then "#0f3460" else "#2c3e50").
Proof.
  assert (Hmeta : is_Some (meta_theme_color (document w_system_dark)))
    by (eexists; reflexivity).
  split; [exact Hmeta|].
  exact (proj2 (theme_color_follows_data_theme w_system_dark
                  [E_DOMContentLoaded; E_click (T_option 0 0)]) Hmeta).
Defined.
